(** * The /find/page endpoint of main.py, embedded in Rocq

    The handler [find_page] of [main.py] is translated statement by
    statement into a small state-and-exception monad.  The services the
    handler talks to (the GPT4 wrapper, the Google search wrapper, the page
    fetcher, the validators) are not part of the translated code: they are
    fields of a record of collaborators, each one a function of an abstract
    world, so that a collaborator may answer differently every time it is
    called and may raise.  Every call is also written to a trace, which is
    what the statements about "no call is made" or "fetched twice" read. *)

From Equations Require Import Equations.
From stdpp Require Import base option list gmap strings sets.
From Stdlib Require Import ZArith Lia Ascii.

Local Open Scope Z_scope.

Set Warnings "-register-all".

(** ** Python values *)

(** The JSON-shaped fragment of Python values (no floats): what
    [request.json] and [json.loads] produce.  A [dict] keeps its items in
    insertion order, which is the order [json.dumps] writes them in. *)
Inductive pyval : Type :=
| PyNone
| PyBool (b : bool)
| PyInt (z : Z)
| PyStr (s : string)
| PyList (l : list pyval)
| PyDict (d : list (string * pyval)).

(** [d.get(k)] on the items of a dict; a real dict has no repeated key. *)
Fixpoint dict_lookup {V : Type} (k : string) (d : list (string * V)) : option V :=
  match d with
  | [] => None
  | (k', v) :: d' => if String.eqb k k' then Some v else dict_lookup k d'
  end.

(** [d.get(k, None)]. *)
Definition dict_get (d : list (string * pyval)) (k : string) : pyval :=
  default PyNone (dict_lookup k d).

(** [x is None]. *)
Definition is_None (x : pyval) : bool :=
  match x with PyNone => true | _ => false end.

(** Truth value of [x], as [if x] and [not x] compute it. *)
Definition py_truthy (x : pyval) : bool :=
  match x with
  | PyNone => false
  | PyBool b => b
  | PyInt z => negb (z =? 0)
  | PyStr s => negb (String.eqb s "")
  | PyList l => negb (Nat.eqb (length l) 0)
  | PyDict d => negb (Nat.eqb (length d) 0)
  end.

(** [a == b].  [bool] is a subclass of [int], so [True == 1]; lists compare
    item by item; dicts compare their sizes and then look every item of the
    left one up in the right one. *)
Fixpoint py_eq (a b : pyval) {struct a} : bool :=
  match a, b with
  | PyNone, PyNone => true
  | PyBool x, PyBool y => Bool.eqb x y
  | PyBool x, PyInt y => Z.b2z x =? y
  | PyInt x, PyBool y => x =? Z.b2z y
  | PyInt x, PyInt y => x =? y
  | PyStr x, PyStr y => String.eqb x y
  | PyList xs, PyList ys =>
      (fix items_eq (xs ys : list pyval) {struct xs} : bool :=
         match xs, ys with
         | [], [] => true
         | x :: xs', y :: ys' => py_eq x y && items_eq xs' ys'
         | _, _ => false
         end) xs ys
  | PyDict d1, PyDict d2 =>
      Nat.eqb (length d1) (length d2) &&
      (fix items_in (d : list (string * pyval)) : bool :=
         match d with
         | [] => true
         | (k, v) :: d' =>
             match dict_lookup k d2 with
             | Some v' => py_eq v v'
             | None => false
             end && items_in d'
         end) d1
  | _, _ => false
  end.

(** [l.remove(x)]: drops the first item equal to [x]; [None] stands for the
    [ValueError] raised when there is none. *)
Fixpoint list_remove (x : pyval) (l : list pyval) : option (list pyval) :=
  match l with
  | [] => None
  | y :: l' => if py_eq y x then Some l' else cons y <$> list_remove x l'
  end.

(** The values that stand for a Python value: no dict has a key twice. *)
Fixpoint py_wf (x : pyval) : Prop :=
  match x with
  | PyList l =>
      (fix all (l : list pyval) : Prop :=
         match l with
         | [] => True
         | y :: l' => py_wf y ∧ all l'
         end) l
  | PyDict d =>
      NoDup (fst <$> d) ∧
      (fix all (d : list (string * pyval)) : Prop :=
         match d with
         | [] => True
         | (_, y) :: d' => py_wf y ∧ all d'
         end) d
  | _ => True
  end.

(** Induction on a value, with the hypothesis for every item of a list and
    for every value of a dict. *)
Section pyval_induction.
Variable P : pyval → Prop.
Hypothesis HNone : P PyNone.
Hypothesis HBool : ∀ b, P (PyBool b).
Hypothesis HInt : ∀ z, P (PyInt z).
Hypothesis HStr : ∀ s, P (PyStr s).
Hypothesis HList : ∀ l, Forall P l → P (PyList l).
Hypothesis HDict : ∀ d, Forall (fun kv => P kv.2) d → P (PyDict d).

Fixpoint pyval_nested_ind (x : pyval) : P x :=
  match x with
  | PyNone => HNone
  | PyBool b => HBool b
  | PyInt z => HInt z
  | PyStr s => HStr s
  | PyList l =>
      HList l
        ((fix items (l : list pyval) : Forall P l :=
            match l with
            | [] => List.Forall_nil P
            | y :: l' => List.Forall_cons P y l' (pyval_nested_ind y) (items l')
            end) l)
  | PyDict d =>
      HDict d
        ((fix items (d : list (string * pyval)) : Forall (fun kv => P kv.2) d :=
            match d with
            | [] => List.Forall_nil _
            | (k, y) :: d' =>
                List.Forall_cons _ (k, y) d' (pyval_nested_ind y) (items d')
            end) d)
  end.
End pyval_induction.

(** ** Outcomes, states and the monad *)

(** What a Python call does: it returns a value or raises; [e] is [str(e)]
    of the exception. *)
Inductive outcome (A : Type) : Type :=
| Return (a : A)
| Raise (e : string).
Arguments Return {A} a.
Arguments Raise {A} e.

(** One entry of the trace per call to a collaborator: the arguments of
    the call and what came back. *)
Inductive event : Type :=
| EvValidUrl (url : pyval) (r : outcome bool)
| EvValidQuery (query : pyval) (r : outcome bool)
| EvClassify (query url : pyval) (r : outcome pyval)
| EvUnfocused (query url : pyval) (r : outcome pyval)
| EvExpand (query base_url : pyval) (r : outcome (list pyval))
| EvSearch (search : pyval) (r : outcome pyval)
| EvSelect (query base_url : pyval) (results : list pyval) (r : outcome pyval)
| EvFetch (link : pyval) (r : outcome pyval)
| EvGrounded (query base_url link content : pyval) (r : outcome pyval).

Record state (W : Type) : Type := mkState { world : W; trace : list event }.
Arguments mkState {W} world trace.
Arguments world {W} s.
Arguments trace {W} s.

Definition M (W A : Type) : Type := state W → outcome A * state W.

Definition ret {W A} (a : A) : M W A := fun s => (Return a, s).

Definition raise {W A} (e : string) : M W A := fun s => (Raise e, s).

Definition bind {W A B} (m : M W A) (k : A → M W B) : M W B :=
  fun s =>
    match m s with
    | (Return a, s') => k a s'
    | (Raise e, s') => (Raise e, s')
    end.

(** A call to a collaborator: the world moves on and the call is logged. *)
Definition call {W A} (f : W → outcome A * W) (ev : outcome A → event) : M W A :=
  fun s =>
    let '(r, w') := f (world s) in
    (r, mkState w' (trace s ++ [ev r])).

Declare Scope py_scope.
Delimit Scope py_scope with py.
Notation "x <- m ;; k" := (bind m (fun x => k))
  (at level 100, m at next level, right associativity) : py_scope.

(** ** Collaborators *)

(** Modelled from the spec: the collaborators of section 6.  Their code is
    not part of the translated sources ([chatgpt.py], [googlesearch.py],
    [utils.py], the [validators] package, and [fetch_page_content], which
    [main.py] imports from [web_utils] but [web_utils.py] does not define),
    so each of them is a field of this record, with the contract the spec
    gives it: a call returns a value or fails.  The first nine fields are
    services: they see and change the world.  The last three are functions
    of the standard library, without effects. *)
Record collab (W : Type) : Type := mkCollab {
  (** truth value of [validators.url(url)] *)
  validators_url : pyval → W → outcome bool * W;
  (** truth value of [utils.is_valid_query(query)] *)
  is_valid_query : pyval → W → outcome bool * W;
  (** [gpt4.is_user_searching(query, url)] *)
  is_user_searching : pyval → pyval → W → outcome pyval * W;
  (** [gpt4.gen_unfocused_response(query, url)] *)
  gen_unfocused_response : pyval → pyval → W → outcome pyval * W;
  (** [gpt4.get_search_queries(query, base_url)], a sequence *)
  get_search_queries : pyval → pyval → W → outcome (list pyval) * W;
  (** [google_seach.get_top_result(search)] *)
  get_top_result : pyval → W → outcome pyval * W;
  (** [gpt4.get_relevant_result(query, base_url, unique_results_list)] *)
  get_relevant_result : pyval → pyval → list pyval → W → outcome pyval * W;
  (** [fetch_page_content(relevant_link)] *)
  fetch_page_content : pyval → W → outcome pyval * W;
  (** [gpt4.gen_customer_response(query, base_url, relevant_link, page_content)] *)
  gen_customer_response : pyval → pyval → pyval → pyval → W → outcome pyval * W;
  (** [urllib.parse.urlparse(link)], reduced to its scheme and netloc *)
  urlparse : pyval → outcome (string * string);
  (** [json.dumps(x)] *)
  json_dumps : pyval → string;
  (** [json.loads(s)] *)
  json_loads : string → pyval
}.
Arguments validators_url {W} c url w.
Arguments is_valid_query {W} c query w.
Arguments is_user_searching {W} c query url w.
Arguments gen_unfocused_response {W} c query url w.
Arguments get_search_queries {W} c query base_url w.
Arguments get_top_result {W} c search w.
Arguments get_relevant_result {W} c query base_url results w.
Arguments fetch_page_content {W} c link w.
Arguments gen_customer_response {W} c query base_url link content w.
Arguments urlparse {W} c link.
Arguments json_dumps {W} c x.
Arguments json_loads {W} c s.

(** ** web_utils.py *)

(** [get_base_url(link)]: scheme and netloc of the link, [None] when
    [urlparse] raises. *)
Definition get_base_url {W} (C : collab W) (link : pyval) : pyval :=
  match urlparse C link with
  | Return (scheme, netloc) => PyStr (scheme +:+ "://" +:+ netloc)
  | Raise _ => PyNone
  end.

(** [is_valid_url(url)]. *)
Definition is_valid_url {W} (C : collab W) (url : pyval) : M W bool :=
  (v <- call (validators_url C url) (EvValidUrl url) ;;
   if v then ret true else ret false)%py.

(** ** main.py *)

(** What a view returns: [jsonify(body), status]. *)
Record response : Type := mkResponse { body : pyval; status : Z }.

Definition jsonify_error (msg : string) : pyval := PyDict [("error", PyStr msg)].

Definition jsonify_link (link message : pyval) : pyval :=
  PyDict [("link", link); ("message", message)].

(** The name of the type of [x], as it appears in an [AttributeError]. *)
Definition type_name (x : pyval) : string :=
  match x with
  | PyNone => "NoneType"
  | PyBool _ => "bool"
  | PyInt _ => "int"
  | PyStr _ => "str"
  | PyList _ => "list"
  | PyDict _ => "dict"
  end.

(** [data.get]: only a dict has the method. *)
Definition items_of {W} (data : pyval) : M W (list (string * pyval)) :=
  match data with
  | PyDict d => ret d
  | _ => raise ("'" +:+ type_name data +:+ "' object has no attribute 'get'")
  end.

(** Lines 70 to 73, the deduplication step: the result is serialized, the
    serialization is added to the set [results], and the list is rebuilt
    from the set.  The order in which Python iterates over a set is not
    specified; [elements] fixes one order, and nothing below depends on
    which one. *)
Definition add_result {W} (C : collab W) (current_result : pyval)
    (acc : gset string * list pyval) : gset string * list pyval :=
  let result_str := json_dumps C current_result in
  let results := {[result_str]} ∪ acc.1 in
  let unique_results_list := json_loads C <$> elements results in
  (results, unique_results_list).

(** Lines 62 to 73: one search per query; a result that is [None] is
    skipped, every other one goes through the deduplication step. *)
Fixpoint search_loop {W} (C : collab W) (search_queries : list pyval)
    (acc : gset string * list pyval) : M W (gset string * list pyval) :=
  match search_queries with
  | [] => ret acc
  | search :: search_queries' =>
      (current_result <- call (get_top_result C search) (EvSearch search) ;;
       if is_None current_result
       then search_loop C search_queries' acc
       else search_loop C search_queries' (add_result C current_result acc))%py
  end.

(** The deduplication step on its own, applied to a sequence of candidates:
    what lines 62 to 73 compute when the searches return the items of [X]. *)
Definition dedup_acc {W} (C : collab W) (X : list pyval) : gset string * list pyval :=
  foldl (fun acc x => add_result C x acc) (∅, []) X.

Definition dedup {W} (C : collab W) (X : list pyval) : list pyval :=
  (dedup_acc C X).2.

Definition inspect {A} (a : A) : {b : A | a = b} := exist _ a eq_refl.

(** Lines 78 to 87: [for result in unique_results_list: ...].  The list
    iterator keeps an index [idx] into the list object; every round reads
    the item at [idx], moves the index on and runs the body, and the loop
    ends when the index has reached the current length of the list.  The
    body removes from the very list it iterates over.  [relevant_link] and
    [page_content] are the variables the body assigns, [None] while they are
    unbound. *)
Equations? verify_loop {W} (C : collab W) (query base_url : pyval) (idx : nat)
    (unique_results_list : list pyval) (relevant_link page_content : option pyval)
    (s : state W) : outcome (option pyval * option pyval) * state W
    by wf (length unique_results_list - idx)%nat lt :=
  verify_loop C query base_url idx L rl pc s with inspect (L !! idx) := {
    | exist _ None _ => (Return (rl, pc), s)
    | exist _ (Some result) Hidx
        with call (get_relevant_result C query base_url L)
                  (EvSelect query base_url L) s := {
      | (Raise e, s1) => (Raise e, s1)
      | (Return link, s1)
          with call (fetch_page_content C link) (EvFetch link) s1 := {
        | (Raise e, s2) => (Raise e, s2)
        | (Return content, s2) with is_None content := {
          | false => (Return (Some link, Some content), s2)
          | true with inspect (list_remove result L) := {
            | exist _ None _ => (Raise "list.remove(x): x not in list", s2)
            | exist _ (Some L') Hrm =>
                verify_loop C query base_url (S idx) L' (Some link) (Some content) s2
            }
          }
        }
      }
    }.
Proof.
  apply lookup_lt_Some in Hidx.
  assert (Hlen : ∀ l l', list_remove result l = Some l' → length l = S (length l')).
  { induction l as [|y l IH]; intros l' H; simpl in H; [done|].
    destruct (py_eq y result); [by inversion H|].
    destruct (list_remove result l) as [l0|]; simpl in H; [|done].
    inversion H; subst. simpl. by rewrite (IH l0). }
  apply Hlen in Hrm. lia.
Qed.

(** The body of the [try] block of [find_page]. *)
Definition find_page_try {W} (C : collab W) (data : pyval) : M W response :=
  (d <- items_of data ;;
   let url := dict_get d "url" in
   let query := dict_get d "query" in
   if is_None url then ret (mkResponse (jsonify_error "Missing url parameter.") 401) else
   if is_None query then ret (mkResponse (jsonify_error "Missing query parameter.") 402) else
   valid_url <- is_valid_url C url ;;
   if negb valid_url then ret (mkResponse (jsonify_error "Invalid URL.") 421) else
   valid_query <- call (is_valid_query C query) (EvValidQuery query) ;;
   if negb valid_query then ret (mkResponse (jsonify_error "Invalid query.") 422) else
   is_user_searching <- call (is_user_searching C query url) (EvClassify query url) ;;
   if negb (py_truthy is_user_searching) then
     unfocused_response <-
       call (gen_unfocused_response C query url) (EvUnfocused query url) ;;
     ret (mkResponse (jsonify_link PyNone unfocused_response) 200)
   else
   if is_None is_user_searching
   then ret (mkResponse (jsonify_error "An error occurred.") 500) else
   let base_url := get_base_url C url in
   search_queries <-
     call (get_search_queries C query base_url) (EvExpand query base_url) ;;
   collected <- search_loop C search_queries (∅, []) ;;
   let unique_results_list := collected.2 in
   if (Z.of_nat (length unique_results_list) <=? 0)
   then ret (mkResponse (jsonify_error "No relevant links found.") 423) else
   bound <- verify_loop C query base_url 0 unique_results_list None None ;;
   match bound.1, bound.2 with
   | Some relevant_link, Some page_content =>
       if py_eq relevant_link (PyStr "None") || is_None relevant_link
       then ret (mkResponse (jsonify_error "No relevant links found.") 424) else
       customer_response <-
         call (gen_customer_response C query base_url relevant_link page_content)
              (EvGrounded query base_url relevant_link page_content) ;;
       ret (mkResponse (jsonify_link relevant_link customer_response) 200)
   | _, _ => raise "local variable 'relevant_link' referenced before assignment"
   end)%py.

(** [find_page]: the [try] block, and [except Exception as e] around it. *)
Definition find_page {W} (C : collab W) (data : pyval) (s : state W)
    : response * state W :=
  match find_page_try C data s with
  | (Return r, s') => (r, s')
  | (Raise e, s') => (mkResponse (jsonify_error e) 500, s')
  end.

(** The handler from its first statement.  [data = request.json] (line 25)
    is inside the [try]: when the body cannot be read as JSON, or the
    content type of the request is not JSON, [request.json] raises, and
    line 98 answers 500 with the text of that exception before anything is
    called.  [request_json] is what [request.json] does for the request at
    hand: it returns the parsed body or it raises. *)
Definition find_page_request {W} (C : collab W) (request_json : outcome pyval)
    (s : state W) : response * state W :=
  match request_json with
  | Return data => find_page C data s
  | Raise e => (mkResponse (jsonify_error e) 500, s)
  end.

(** ** Reading the trace *)

(** The links handed to [fetch_page_content], in the order of the calls. *)
Definition fetched (tr : list event) : list pyval :=
  omap (fun e => match e with EvFetch link _ => Some link | _ => None end) tr.

(** The results of the searches that were not [None], in the order of the
    calls. *)
Definition found (tr : list event) : list pyval :=
  omap (fun e => match e with
                 | EvSearch _ (Return c) => if is_None c then None else Some c
                 | _ => None
                 end) tr.

Definition is_search (e : event) : Prop :=
  match e with EvSearch _ _ => True | _ => False end.

Definition is_verifier (e : event) : Prop :=
  match e with EvSelect _ _ _ _ | EvFetch _ _ => True | _ => False end.

(** The selector was given at least one candidate. *)
Definition select_nonempty (e : event) : Prop :=
  match e with EvSelect _ _ results _ => results ≠ [] | _ => True end.

(** No search and no fetch. *)
Definition no_search_no_fetch (e : event) : Prop :=
  match e with EvSearch _ _ | EvFetch _ _ => False | _ => True end.

(** The ["message"] and ["link"] members of the body of a response. *)
Definition message_of (r : response) : pyval :=
  match body r with PyDict d => dict_get d "message" | _ => PyNone end.

Definition link_of (r : response) : pyval :=
  match body r with PyDict d => dict_get d "link" | _ => PyNone end.

(** ** The verifier loop as a relation

    One constructor per way a round of the loop can go. *)
Inductive loop_run {W} (C : collab W) (query base_url : pyval) :
    nat → list pyval → option pyval → option pyval → state W →
    outcome (option pyval * option pyval) * state W → Prop :=
| LoopExhausted idx L rl pc s :
    L !! idx = None →
    loop_run C query base_url idx L rl pc s (Return (rl, pc), s)
| LoopSelectRaises idx L rl pc s result e w1 :
    L !! idx = Some result →
    get_relevant_result C query base_url L (world s) = (Raise e, w1) →
    loop_run C query base_url idx L rl pc s
      (Raise e, mkState w1 (trace s ++ [EvSelect query base_url L (Raise e)]))
| LoopFetchRaises idx L rl pc s result link w1 e w2 :
    L !! idx = Some result →
    get_relevant_result C query base_url L (world s) = (Return link, w1) →
    fetch_page_content C link w1 = (Raise e, w2) →
    loop_run C query base_url idx L rl pc s
      (Raise e,
       mkState w2 (trace s ++ [EvSelect query base_url L (Return link);
                               EvFetch link (Raise e)]))
| LoopBreak idx L rl pc s result link w1 content w2 :
    L !! idx = Some result →
    get_relevant_result C query base_url L (world s) = (Return link, w1) →
    fetch_page_content C link w1 = (Return content, w2) →
    is_None content = false →
    loop_run C query base_url idx L rl pc s
      (Return (Some link, Some content),
       mkState w2 (trace s ++ [EvSelect query base_url L (Return link);
                               EvFetch link (Return content)]))
| LoopRemoveRaises idx L rl pc s result link w1 content w2 :
    L !! idx = Some result →
    get_relevant_result C query base_url L (world s) = (Return link, w1) →
    fetch_page_content C link w1 = (Return content, w2) →
    is_None content = true →
    list_remove result L = None →
    loop_run C query base_url idx L rl pc s
      (Raise "list.remove(x): x not in list",
       mkState w2 (trace s ++ [EvSelect query base_url L (Return link);
                               EvFetch link (Return content)]))
| LoopNext idx L rl pc s result link w1 content w2 L' out :
    L !! idx = Some result →
    get_relevant_result C query base_url L (world s) = (Return link, w1) →
    fetch_page_content C link w1 = (Return content, w2) →
    is_None content = true →
    list_remove result L = Some L' →
    loop_run C query base_url (S idx) L' (Some link) (Some content)
      (mkState w2 (trace s ++ [EvSelect query base_url L (Return link);
                               EvFetch link (Return content)])) out →
    loop_run C query base_url idx L rl pc s out.

(** ** The handler as a relation

    The runs of [find_page], one constructor per way out.  The three
    relations follow the three parts of the handler: the verifier (lines 78
    to 94), the search (lines 57 to 76) and the checks before it (lines 25
    to 55). *)
Inductive verifier_run {W} (C : collab W) (query base_url : pyval)
    (L : list pyval) (s : state W) : outcome response * state W → Prop :=
| VerifierLoopRaises e s1 :
    loop_run C query base_url 0 L None None s (Raise e, s1) →
    verifier_run C query base_url L s (Raise e, s1)
| VerifierNoLink link content s1 :
    loop_run C query base_url 0 L None None s
      (Return (Some link, Some content), s1) →
    py_eq link (PyStr "None") || is_None link = true →
    verifier_run C query base_url L s
      (Return (mkResponse (jsonify_error "No relevant links found.") 424), s1)
| VerifierSynthRaises link content s1 e s2 :
    loop_run C query base_url 0 L None None s
      (Return (Some link, Some content), s1) →
    py_eq link (PyStr "None") || is_None link = false →
    call (gen_customer_response C query base_url link content)
         (EvGrounded query base_url link content) s1 = (Raise e, s2) →
    verifier_run C query base_url L s (Raise e, s2)
| VerifierGrounded link content s1 m s2 :
    loop_run C query base_url 0 L None None s
      (Return (Some link, Some content), s1) →
    py_eq link (PyStr "None") || is_None link = false →
    call (gen_customer_response C query base_url link content)
         (EvGrounded query base_url link content) s1 = (Return m, s2) →
    verifier_run C query base_url L s
      (Return (mkResponse (jsonify_link link m) 200), s2).

Inductive searching_run {W} (C : collab W) (query url : pyval) (s : state W) :
    outcome response * state W → Prop :=
| SearchingExpandRaises e s1 :
    call (get_search_queries C query (get_base_url C url))
         (EvExpand query (get_base_url C url)) s = (Raise e, s1) →
    searching_run C query url s (Raise e, s1)
| SearchingSearchRaises search_queries s1 e s2 :
    call (get_search_queries C query (get_base_url C url))
         (EvExpand query (get_base_url C url)) s = (Return search_queries, s1) →
    search_loop C search_queries (∅, []) s1 = (Raise e, s2) →
    searching_run C query url s (Raise e, s2)
| SearchingNoCandidates search_queries s1 acc s2 :
    call (get_search_queries C query (get_base_url C url))
         (EvExpand query (get_base_url C url)) s = (Return search_queries, s1) →
    search_loop C search_queries (∅, []) s1 = (Return acc, s2) →
    acc.2 = [] →
    searching_run C query url s
      (Return (mkResponse (jsonify_error "No relevant links found.") 423), s2)
| SearchingVerifier search_queries s1 acc s2 out :
    call (get_search_queries C query (get_base_url C url))
         (EvExpand query (get_base_url C url)) s = (Return search_queries, s1) →
    search_loop C search_queries (∅, []) s1 = (Return acc, s2) →
    acc.2 ≠ [] →
    verifier_run C query (get_base_url C url) acc.2 s2 out →
    searching_run C query url s out.

(** Both parameters are there and both validators said yes. *)
Definition validated {W} (C : collab W) (url query : pyval) (s s2 : state W) : Prop :=
  is_None url = false ∧ is_None query = false ∧
  ∃ s1, call (validators_url C url) (EvValidUrl url) s = (Return true, s1) ∧
        call (is_valid_query C query) (EvValidQuery query) s1 = (Return true, s2).

Inductive try_run {W} (C : collab W) (data : pyval) (s : state W) :
    outcome response * state W → Prop :=
| TryNoGet :
    (∀ d, data ≠ PyDict d) →
    try_run C data s
      (Raise ("'" +:+ type_name data +:+ "' object has no attribute 'get'"), s)
| TryMissingUrl d :
    data = PyDict d →
    is_None (dict_get d "url") = true →
    try_run C data s
      (Return (mkResponse (jsonify_error "Missing url parameter.") 401), s)
| TryMissingQuery d :
    data = PyDict d →
    is_None (dict_get d "url") = false →
    is_None (dict_get d "query") = true →
    try_run C data s
      (Return (mkResponse (jsonify_error "Missing query parameter.") 402), s)
| TryUrlRaises d e s1 :
    data = PyDict d →
    is_None (dict_get d "url") = false →
    is_None (dict_get d "query") = false →
    call (validators_url C (dict_get d "url")) (EvValidUrl (dict_get d "url")) s
      = (Raise e, s1) →
    try_run C data s (Raise e, s1)
| TryInvalidUrl d s1 :
    data = PyDict d →
    is_None (dict_get d "url") = false →
    is_None (dict_get d "query") = false →
    call (validators_url C (dict_get d "url")) (EvValidUrl (dict_get d "url")) s
      = (Return false, s1) →
    try_run C data s (Return (mkResponse (jsonify_error "Invalid URL.") 421), s1)
| TryQueryRaises d s1 e s2 :
    data = PyDict d →
    is_None (dict_get d "url") = false →
    is_None (dict_get d "query") = false →
    call (validators_url C (dict_get d "url")) (EvValidUrl (dict_get d "url")) s
      = (Return true, s1) →
    call (is_valid_query C (dict_get d "query")) (EvValidQuery (dict_get d "query")) s1
      = (Raise e, s2) →
    try_run C data s (Raise e, s2)
| TryInvalidQuery d s1 s2 :
    data = PyDict d →
    is_None (dict_get d "url") = false →
    is_None (dict_get d "query") = false →
    call (validators_url C (dict_get d "url")) (EvValidUrl (dict_get d "url")) s
      = (Return true, s1) →
    call (is_valid_query C (dict_get d "query")) (EvValidQuery (dict_get d "query")) s1
      = (Return false, s2) →
    try_run C data s (Return (mkResponse (jsonify_error "Invalid query.") 422), s2)
| TryClassifyRaises d s2 e s3 :
    data = PyDict d →
    validated C (dict_get d "url") (dict_get d "query") s s2 →
    call (is_user_searching C (dict_get d "query") (dict_get d "url"))
         (EvClassify (dict_get d "query") (dict_get d "url")) s2 = (Raise e, s3) →
    try_run C data s (Raise e, s3)
| TryUnfocusedRaises d s2 v s3 e s4 :
    data = PyDict d →
    validated C (dict_get d "url") (dict_get d "query") s s2 →
    call (is_user_searching C (dict_get d "query") (dict_get d "url"))
         (EvClassify (dict_get d "query") (dict_get d "url")) s2 = (Return v, s3) →
    py_truthy v = false →
    call (gen_unfocused_response C (dict_get d "query") (dict_get d "url"))
         (EvUnfocused (dict_get d "query") (dict_get d "url")) s3 = (Raise e, s4) →
    try_run C data s (Raise e, s4)
| TryUnfocused d s2 v s3 m s4 :
    data = PyDict d →
    validated C (dict_get d "url") (dict_get d "query") s s2 →
    call (is_user_searching C (dict_get d "query") (dict_get d "url"))
         (EvClassify (dict_get d "query") (dict_get d "url")) s2 = (Return v, s3) →
    py_truthy v = false →
    call (gen_unfocused_response C (dict_get d "query") (dict_get d "url"))
         (EvUnfocused (dict_get d "query") (dict_get d "url")) s3 = (Return m, s4) →
    try_run C data s (Return (mkResponse (jsonify_link PyNone m) 200), s4)
| TrySearching d s2 v s3 out :
    data = PyDict d →
    validated C (dict_get d "url") (dict_get d "query") s s2 →
    call (is_user_searching C (dict_get d "query") (dict_get d "url"))
         (EvClassify (dict_get d "query") (dict_get d "url")) s2 = (Return v, s3) →
    py_truthy v = true →
    searching_run C (dict_get d "query") (dict_get d "url") s3 out →
    try_run C data s out.

(** ** More readings of the trace *)

(** The text of the exception when the call raised. *)
Definition raise_of {A} (r : outcome A) : option string :=
  match r with Return _ => None | Raise e => Some e end.

Definition raised (e : event) : option string :=
  match e with
  | EvValidUrl _ r => raise_of r
  | EvValidQuery _ r => raise_of r
  | EvClassify _ _ r => raise_of r
  | EvUnfocused _ _ r => raise_of r
  | EvExpand _ _ r => raise_of r
  | EvSearch _ r => raise_of r
  | EvSelect _ _ _ r => raise_of r
  | EvFetch _ r => raise_of r
  | EvGrounded _ _ _ _ r => raise_of r
  end.

(** The call returned. *)
Definition returned (e : event) : Prop := raised e = None.

(** The queries handed to [get_top_result], in the order of the calls. *)
Definition searched (tr : list event) : list pyval :=
  omap (fun e => match e with EvSearch search _ => Some search | _ => None end) tr.

(** The lists handed to [get_relevant_result], in the order of the calls. *)
Definition selections (tr : list event) : list (list pyval) :=
  omap (fun e => match e with EvSelect _ _ results _ => Some results | _ => None end) tr.

(** The calls made after the classification: expansion, search, selection,
    fetch and the grounded answer. *)
Definition is_pipeline (e : event) : Prop :=
  match e with
  | EvExpand _ _ _ | EvSearch _ _ | EvSelect _ _ _ _ | EvFetch _ _
  | EvGrounded _ _ _ _ _ => True
  | _ => False
  end.

(** The calls of the validators. *)
Definition is_validator (e : event) : Prop :=
  match e with EvValidUrl _ _ | EvValidQuery _ _ => True | _ => False end.

(** The calls before the searches: validators, classification, the reply
    to a remark and the expansion. *)
Definition is_front (e : event) : Prop :=
  match e with
  | EvValidUrl _ _ | EvValidQuery _ _ | EvClassify _ _ _ | EvUnfocused _ _ _
  | EvExpand _ _ _ => True
  | _ => False
  end.

Definition is_grounded (e : event) : Prop :=
  match e with EvGrounded _ _ _ _ _ => True | _ => False end.

(** ** web_utils.py, the sitemap helpers *)

(** What [requests.get] and [requests.head] do: they give a response, of
    which the status code and the text are kept, or they raise;
    [RequestError] stands for a [requests.RequestException], [OtherError]
    for any other exception. *)
Inductive http_result : Type :=
| HttpResponse (status_code : Z) (text : string)
| RequestError (e : string)
| OtherError (e : string).

Record web (W : Type) : Type := mkWeb {
  (** [requests.head(url)] *)
  requests_head : pyval → W → http_result * W;
  (** [requests.get(url)] *)
  requests_get : pyval → W → http_result * W
}.
Arguments requests_head {W} _ _ _.
Arguments requests_get {W} _ _ _.

(** [response.raise_for_status()] raises an [HTTPError], which is a
    [RequestException], exactly for the status codes from 400 to 599. *)
Definition raises_for_status (status_code : Z) : bool :=
  (400 <=? status_code) && (status_code <? 600).

(** [get_sitemap_url(url)].  [urlparse] is called outside the [try], so an
    exception of [urlparse] leaves the function; in the [try], only a
    [RequestException] is caught. *)
Definition get_sitemap_url {W} (C : collab W) (H : web W) (url : pyval) (w : W)
    : outcome pyval * W :=
  match urlparse C url with
  | Raise e => (Raise e, w)
  | Return (scheme, netloc) =>
      let base_url := scheme +:+ "://" +:+ netloc in
      let sitemap_url := base_url +:+ "/sitemap.xml" in
      match requests_head H (PyStr sitemap_url) w with
      | (HttpResponse status_code _, w') =>
          if raises_for_status status_code
          then (Return PyNone, w')
          else (Return (PyStr sitemap_url), w')
      | (RequestError _, w') => (Return PyNone, w')
      | (OtherError e, w') => (Raise e, w')
      end
  end.

(** [fetch_sitemap_contents(sitemap_urls)], the loop with [contents] as its
    accumulator: the text of the response is appended, or [None] after any
    exception. *)
Fixpoint fetch_sitemap_loop {W} (H : web W) (sitemap_urls : list pyval)
    (contents : list pyval) (w : W) : list pyval * W :=
  match sitemap_urls with
  | [] => (contents, w)
  | url :: sitemap_urls' =>
      match requests_get H url w with
      | (HttpResponse status_code text, w') =>
          if raises_for_status status_code
          then fetch_sitemap_loop H sitemap_urls' (contents ++ [PyNone]) w'
          else fetch_sitemap_loop H sitemap_urls' (contents ++ [PyStr text]) w'
      | (RequestError _, w') =>
          fetch_sitemap_loop H sitemap_urls' (contents ++ [PyNone]) w'
      | (OtherError _, w') =>
          fetch_sitemap_loop H sitemap_urls' (contents ++ [PyNone]) w'
      end
  end.

Definition fetch_sitemap_contents {W} (H : web W) (sitemap_urls : list pyval) (w : W)
    : list pyval * W :=
  fetch_sitemap_loop H sitemap_urls [] w.

(** What the requests of [fetch_sitemap_contents] gave back, one entry per
    url, in the order of the calls. *)
Fixpoint get_results {W} (H : web W) (sitemap_urls : list pyval) (w : W)
    : list http_result :=
  match sitemap_urls with
  | [] => []
  | url :: sitemap_urls' =>
      let '(r, w') := requests_get H url w in
      r :: get_results H sitemap_urls' w'
  end.

(** The request did not give a page: it raised, or its status is an error. *)
Definition request_failed (r : http_result) : Prop :=
  match r with
  | HttpResponse status_code _ => raises_for_status status_code = true
  | _ => True
  end.

(** [s.split(sep)[0]] for a separator of one character: what comes before
    the first [sep], all of [s] when there is none. *)
Fixpoint split_head (sep : Ascii.ascii) (s : string) : string :=
  match s with
  | EmptyString => EmptyString
  | String a s' => if Ascii.eqb a sep then EmptyString else String a (split_head sep s')
  end.

(** [s.lstrip(c)], [s.rstrip(c)] and [s.strip(c)] for one character. *)
Fixpoint lstrip (c : Ascii.ascii) (s : string) : string :=
  match s with
  | EmptyString => EmptyString
  | String a s' => if Ascii.eqb a c then lstrip c s' else s
  end.

Fixpoint rstrip (c : Ascii.ascii) (s : string) : string :=
  match s with
  | EmptyString => EmptyString
  | String a s' =>
      match rstrip c s' with
      | EmptyString => if Ascii.eqb a c then EmptyString else String a EmptyString
      | String b t => String a (String b t)
      end
  end.

Definition strip (c : Ascii.ascii) (s : string) : string := rstrip c (lstrip c s).

(** Line 156 of [parse_sitemap_to_urls], the namespace taken from the tag
    of the root: [root.tag.split('}')[0].strip('{')]. *)
Definition sitemap_namespace (tag : string) : string :=
  strip "{"%char (split_head "}"%char tag).

(** No character of [s] is [c]. *)
Fixpoint free_of (c : Ascii.ascii) (s : string) : bool :=
  match s with
  | EmptyString => true
  | String a s' => negb (Ascii.eqb a c) && free_of c s'
  end.

(** * A shop site

    Collaborators for the end-to-end scenarios.  Their world is [unit]:
    they answer the same way every time they are asked. *)

Definition dquote : string := String (Ascii.ascii_of_nat 34) EmptyString.

(** [json.dumps] and [json.loads] on the values of the scenarios, which are
    [None] and strings without a character that needs an escape: such a
    string is written between double quotes. *)
Definition dumps_plain (x : pyval) : string :=
  match x with
  | PyStr s => dquote +:+ s +:+ dquote
  | _ => "null"
  end.

Definition loads_plain (s : string) : pyval :=
  match s with
  | String c s' =>
      if Ascii.eqb c (Ascii.ascii_of_nat 34)
      then PyStr (String.substring 0 (String.length s' - 1)%nat s')
      else PyNone
  | EmptyString => PyNone
  end.

(** The search finds one page per query, and nothing for the empty query. *)
Definition shop_top_result (search : pyval) : pyval :=
  match search with
  | PyStr s => if String.eqb s "" then PyNone else PyStr ("https://shop.example/" +:+ s)
  | _ => PyNone
  end.

(** A selector that always takes the last candidate it is shown. *)
Definition pick_last (results : list pyval) : pyval := List.last results PyNone.

(** The site: [searching] is the answer of the classifier, [unfocused] the
    reply to a remark, [search_queries] the expansion of the query, [pick]
    the selector and [page] the fetcher. *)
Definition shop (searching unfocused : pyval) (search_queries : list pyval)
    (pick : list pyval → pyval) (page : pyval → pyval) : collab unit :=
  {| validators_url := fun url w =>
       (Return (match url with PyStr s => String.prefix "https://" s | _ => false end), w);
     is_valid_query := fun query w =>
       (Return (match query with PyStr s => negb (String.eqb s "") | _ => false end), w);
     is_user_searching := fun _ _ w => (Return searching, w);
     gen_unfocused_response := fun _ _ w => (Return unfocused, w);
     get_search_queries := fun _ _ w => (Return search_queries, w);
     get_top_result := fun search w => (Return (shop_top_result search), w);
     get_relevant_result := fun _ _ results w => (Return (pick results), w);
     fetch_page_content := fun link w => (Return (page link), w);
     gen_customer_response := fun _ _ _ _ w => (Return (PyStr "See the linked page."), w);
     urlparse := fun _ => Return ("https", "shop.example");
     json_dumps := dumps_plain;
     json_loads := loads_plain |}.

Definition request : pyval :=
  PyDict [("url", PyStr "https://shop.example/product/1");
          ("query", PyStr "what is your return policy?")].

Definition remark : pyval :=
  PyDict [("url", PyStr "https://shop.example/product/1");
          ("query", PyStr "nice shirt!")].

Definition returns_page : pyval := PyStr "https://shop.example/returns".

(** No page of the site can be fetched. *)
Definition unreachable (link : pyval) : pyval := PyNone.

(** Every page of the site can be fetched. *)
Definition reachable (link : pyval) : pyval :=
  PyStr "Returns are accepted within 30 days.".

(** No fetch in the trace got a page. *)
Definition all_fetches_failed (tr : list event) : bool :=
  forallb (fun e => match e with
                    | EvFetch _ (Return PyNone) => true
                    | EvFetch _ _ => false
                    | _ => true
                    end) tr.

(** The shop on a day when the service that writes the answers fails:
    the page is found and fetched, and [gen_customer_response] raises. *)
Definition answer_down : collab unit :=
  let site := shop (PyBool true) PyNone [PyStr "returns"]
                (fun _ => returns_page) reachable in
  {| validators_url := validators_url site;
     is_valid_query := is_valid_query site;
     is_user_searching := is_user_searching site;
     gen_unfocused_response := gen_unfocused_response site;
     get_search_queries := get_search_queries site;
     get_top_result := get_top_result site;
     get_relevant_result := get_relevant_result site;
     fetch_page_content := fetch_page_content site;
     gen_customer_response := fun _ _ _ _ w => (Raise "Request timed out.", w);
     urlparse := urlparse site;
     json_dumps := json_dumps site;
     json_loads := json_loads site |}.

(** The shop on a day when the search service refuses every search. *)
Definition search_down : collab unit :=
  let site := shop (PyBool true) PyNone [PyStr "returns"] pick_last reachable in
  {| validators_url := validators_url site;
     is_valid_query := is_valid_query site;
     is_user_searching := is_user_searching site;
     gen_unfocused_response := gen_unfocused_response site;
     get_search_queries := get_search_queries site;
     get_top_result := fun _ w => (Raise "HTTP Error 429: Too Many Requests", w);
     get_relevant_result := get_relevant_result site;
     fetch_page_content := fetch_page_content site;
     gen_customer_response := gen_customer_response site;
     urlparse := urlparse site;
     json_dumps := json_dumps site;
     json_loads := json_loads site |}.

(** The web server of the shop: a HEAD request is answered by a redirect;
    a GET request finds the sitemap and no other page, and an url that is
    not a string is refused by [requests]. *)
Definition shop_web : web unit :=
  {| requests_head := fun _ w => (HttpResponse 301 "", w);
     requests_get := fun url w =>
       (match url with
        | PyStr s =>
            if String.eqb s "https://shop.example/sitemap.xml"
            then HttpResponse 200 "<urlset/>"
            else HttpResponse 404 "Not Found"
        | _ => RequestError "Invalid URL"
        end, w) |}.

(** * Lemmas on the runs of the handler *)

Section Runs.
Context {W : Type} (C : collab W).


Lemma call_inv {A} (f : W → outcome A * W) ev (s s' : state W) r :
  call f ev s = (r, s') →
  ∃ w', f (world s) = (r, w') ∧ s' = mkState w' (trace s ++ [ev r]).
Proof.
  unfold call. destruct (f (world s)) as [r0 w0]. intros [= <- <-]. eauto.
Qed.

Lemma list_remove_length x l l' :
  list_remove x l = Some l' → length l = S (length l').
Proof.
  revert l'. induction l as [|y l IH]; intros l' H; simpl in H; [done|].
  destruct (py_eq y x); [by inversion H|].
  destruct (list_remove x l) as [l0|]; simpl in H; [|done].
  inversion H; subst. simpl. by rewrite (IH l0).
Qed.

Lemma dict_lookup_item {V} (d : list (string * V)) k v :
  NoDup (fst <$> d) → (k, v) ∈ d → dict_lookup k d = Some v.
Proof.
  induction d as [|[k' v'] d IH]; intros Hnodup Hin; [by apply elem_of_nil in Hin|].
  cbn in *. apply NoDup_cons in Hnodup as [Hk' Hnodup].
  apply elem_of_cons in Hin as [[= -> ->]|Hin].
  - by rewrite String.eqb_refl.
  - destruct (String.eqb_spec k k') as [->|_]; [|by apply IH].
    destruct Hk'. apply list_elem_of_fmap. by exists (k', v).
Qed.

(** [x == x] on the values that stand for a Python value. *)
Lemma py_eq_refl x : py_wf x → py_eq x x = true.
Proof.
  induction x as [|b|z|str|l IH|d IH] using pyval_nested_ind; intros Hwf.
  - done.
  - by destruct b.
  - apply Z.eqb_refl.
  - apply String.eqb_refl.
  - cbn in *. induction IH as [|y l Hy _ IHl]; [done|].
    destruct Hwf as [Hwfy Hwfl]. by rewrite Hy, IHl.
  - cbn in *. destruct Hwf as [Hnodup Hwf]. rewrite Nat.eqb_refl. cbn.
    assert (∀ k v, (k, v) ∈ d → dict_lookup k d = Some v) as Hlookup
      by (intros; by apply dict_lookup_item).
    clear Hnodup. set (whole := d) at 1.
    change (∀ k v, (k, v) ∈ d → dict_lookup k whole = Some v) in Hlookup.
    clearbody whole.
    induction IH as [|[k y] d Hy _ IHd]; [done|].
    destruct Hwf as [Hwfy Hwfd].
    rewrite (Hlookup k y) by apply list_elem_of_here. cbn in Hy. rewrite Hy by done.
    cbn. apply IHd; [done|]. intros k' v' Hin. apply Hlookup. by apply list_elem_of_further.
Qed.

(** [l.remove(x)] finds [x] when [x] is an item of [l], so the
    [ValueError] of line 87 is not raised on Python values. *)
Lemma list_remove_item (L : list pyval) idx result :
  L !! idx = Some result → py_wf result → is_Some (list_remove result L).
Proof.
  intros Hidx Hwf. apply py_eq_refl in Hwf.
  revert idx Hidx. induction L as [|y L IH]; intros idx Hidx; [done|].
  cbn. destruct (py_eq y result) eqn:Hy; [by eexists|].
  destruct idx as [|idx]; cbn in Hidx; [congruence|].
  destruct (IH idx Hidx) as [L' ->]. by eexists.
Qed.

Lemma verify_loop_run query base_url idx L rl pc s :
  loop_run C query base_url idx L rl pc s
    (verify_loop C query base_url idx L rl pc s).
Proof.
  funelim (verify_loop C query base_url idx L rl pc s); try rewrite <- Heqcall.
  all: repeat match goal with
       | H : call _ _ _ = _ |- _ => apply call_inv in H; destruct H as (? & ? & ->)
       end.
  all: cbn [trace world] in *; rewrite <- ?app_assoc; cbn [app].
  - by constructor.
  - by econstructor.
  - by econstructor.
  - by econstructor.
  - eapply LoopNext; eauto.
    match goal with IH : context [loop_run] |- _ => revert IH end.
    cbn [trace world]. by rewrite <- app_assoc.
  - by eapply LoopRemoveRaises.
Qed.


Lemma lookup_nonempty (L : list pyval) idx result : L !! idx = Some result → L ≠ [].
Proof. by intros H ->. Qed.

(** The events one run of the loop adds to the trace. *)
Lemma loop_run_events query base_url idx L rl pc (s : state W) out :
  loop_run C query base_url idx L rl pc s out →
  ∃ evs,
    trace out.2 = trace s ++ evs ∧
    Forall is_verifier evs ∧
    Forall select_nonempty evs ∧
    (length (fetched evs) ≤ length L - idx)%nat ∧
    (∀ link content,
       In (EvFetch link (Return content)) evs → is_None content = false →
       out.1 = Return (Some link, Some content)).
Proof.
  induction 1 as
    [idx L rl pc s Hidx
    |idx L rl pc s result e w1 Hidx Hsel
    |idx L rl pc s result link w1 e w2 Hidx Hsel Hfetch
    |idx L rl pc s result link w1 content w2 Hidx Hsel Hfetch Hc
    |idx L rl pc s result link w1 content w2 Hidx Hsel Hfetch Hc Hrm
    |idx L rl pc s result link w1 content w2 L' out Hidx Hsel Hfetch Hc Hrm Hrun IH].
  - exists []. cbn. rewrite app_nil_r. split_and!; [done|constructor|constructor|lia|].
    by intros ? ? [].
  - pose proof (lookup_nonempty _ _ _ Hidx). apply lookup_lt_Some in Hidx.
    eexists. cbn. split_and!; [done|by repeat constructor..| |].
    + cbn. lia.
    + by intros ? ? [|[]].
  - pose proof (lookup_nonempty _ _ _ Hidx). apply lookup_lt_Some in Hidx.
    eexists. cbn. split_and!; [done|by repeat constructor..| |].
    + cbn. lia.
    + by intros ? ? [|[|[]]].
  - pose proof (lookup_nonempty _ _ _ Hidx). apply lookup_lt_Some in Hidx.
    eexists. cbn. split_and!; [done|by repeat constructor..| |].
    + cbn. lia.
    + by intros ? ? [|[[= <- <-]|[]]].
  - pose proof (lookup_nonempty _ _ _ Hidx). apply lookup_lt_Some in Hidx.
    eexists. cbn. split_and!; [done|by repeat constructor..| |].
    + cbn. lia.
    + intros ? ? [|[[= <- <-]|[]]]; [done|congruence].
  - destruct IH as (evs & Htr & Hver & Hne & Hlen & Hsucc).
    pose proof (lookup_nonempty _ _ _ Hidx). apply lookup_lt_Some in Hidx.
    apply list_remove_length in Hrm.
    exists (EvSelect query base_url L (Return link)
            :: EvFetch link (Return content) :: evs).
    cbn [trace] in Htr. rewrite <- app_assoc in Htr. cbn [app] in Htr.
    split_and!; [done|by repeat constructor..| |].
    + unfold fetched in *. cbn. lia.
    + intros l c [|[[= <- <-]|Hin]] Hn; [done|congruence|]. by apply Hsucc.
Qed.

(** When the loop is entered with the index inside the list and runs to
    its end, the body ran at least once, so both variables are bound. *)
Lemma loop_run_bound query base_url idx L rl pc (s : state W) bound s' :
  loop_run C query base_url idx L rl pc s (Return bound, s') →
  (idx < length L)%nat ∨ (is_Some rl ∧ is_Some pc) →
  is_Some bound.1 ∧ is_Some bound.2.
Proof.
  remember (Return bound, s') as out eqn:Hout.
  intros Hrun. revert bound s' Hout.
  induction Hrun as
    [idx L rl pc s Hidx
    |idx L rl pc s result e w1 Hidx Hsel
    |idx L rl pc s result link w1 e w2 Hidx Hsel Hfetch
    |idx L rl pc s result link w1 content w2 Hidx Hsel Hfetch Hc
    |idx L rl pc s result link w1 content w2 Hidx Hsel Hfetch Hc Hrm
    |idx L rl pc s result link w1 content w2 L' out Hidx Hsel Hfetch Hc Hrm Hrun IH];
    intros bound s' Hout; try done.
  - injection Hout as <- <-. apply lookup_ge_None in Hidx.
    intros [?|?]; [lia|done].
  - injection Hout as <- <-. intros _. by split; eexists.
  - intros _. eapply IH; [done|]. right. by split; eexists.
Qed.


Lemma found_app tr1 tr2 : found (tr1 ++ tr2) = found tr1 ++ found tr2.
Proof. apply omap_app. Qed.

(** The events the search loop adds to the trace, and what it returns. *)
Lemma search_loop_events search_queries acc (s : state W) out s' :
  search_loop C search_queries acc s = (out, s') →
  ∃ evs,
    trace s' = trace s ++ evs ∧
    Forall is_search evs ∧
    (length evs ≤ length search_queries)%nat ∧
    match out with
    | Return acc' => acc' = foldl (fun a x => add_result C x a) acc (found evs)
    | Raise e => ∃ search, In (EvSearch search (Raise e)) evs
    end.
Proof.
  revert acc s. induction search_queries as [|search qs IH]; intros acc s Hrun.
  - injection Hrun as <- <-. exists []. by rewrite app_nil_r.
  - cbn [search_loop] in Hrun. unfold bind, call in Hrun.
    destruct (get_top_result C search (world s)) as [[c|e] w1] eqn:Htop.
    + assert (∃ acc1, search_loop C qs acc1
                        (mkState w1 (trace s ++ [EvSearch search (Return c)]))
                      = (out, s') ∧
                      foldl (fun a x => add_result C x a) acc
                        (found [EvSearch search (Return c)]) = acc1)
        as (acc1 & Hrun' & Hacc1).
      { cbn. destruct (is_None c); eauto. }
      apply IH in Hrun' as (evs & Htr & Hall & Hlen & Hout).
      cbn [trace] in Htr. rewrite <- app_assoc in Htr.
      exists (EvSearch search (Return c) :: evs).
      split_and!; [done|by constructor|cbn; lia|].
      destruct out as [acc'|e].
      * change (EvSearch search (Return c) :: evs)
          with ([EvSearch search (Return c)] ++ evs).
        by rewrite found_app, foldl_app, Hacc1.
      * destruct Hout as [q Hq]. exists q. by right.
    + injection Hrun as <- <-. exists [EvSearch search (Raise e)].
      split_and!; [done|by repeat constructor|cbn; lia|]. exists search. by left.
Qed.

Lemma search_loop_app qs1 qs2 acc (s : state W) :
  search_loop C (qs1 ++ qs2) acc s =
  match search_loop C qs1 acc s with
  | (Return acc1, s1) => search_loop C qs2 acc1 s1
  | (Raise e, s1) => (Raise e, s1)
  end.
Proof.
  revert acc s. induction qs1 as [|q qs1 IH]; intros acc s; [done|].
  cbn [app search_loop]. unfold bind.
  destruct (call _ _ s) as [[c|e] s1]; [|done].
  destruct (is_None c); apply IH.
Qed.

(** The state of the deduplication step after the candidates [X]. *)
Lemma foldl_add_result X acc :
  foldl (fun a x => add_result C x a) acc X =
  (list_to_set (json_dumps C <$> X) ∪ acc.1,
   match X with
   | [] => acc.2
   | _ => json_loads C <$> elements (list_to_set (json_dumps C <$> X) ∪ acc.1)
   end).
Proof.
  revert acc. induction X as [|x X IH]; intros [R L].
  - cbn. by rewrite (left_id_L ∅ (∪)).
  - cbn [foldl]. rewrite IH. unfold add_result. cbn [fst snd fmap list_fmap list_to_set foldr].
    assert (list_to_set (json_dumps C <$> X) ∪ ({[json_dumps C x]} ∪ R)
            = {[json_dumps C x]} ∪ list_to_set (json_dumps C <$> X) ∪ R) as Heq.
    { rewrite (assoc_L (∪) (list_to_set _) {[json_dumps C x]} R),
           (comm_L (∪) (list_to_set _) {[json_dumps C x]}). done. }
    rewrite Heq. f_equal. destruct X; [|done].
    cbn. by rewrite (right_id_L ∅ (∪)).
Qed.

Lemma dedup_acc_spec X :
  dedup_acc C X =
  (list_to_set (json_dumps C <$> X),
   json_loads C <$> elements (list_to_set (json_dumps C <$> X) : gset string)).
Proof.
  unfold dedup_acc. rewrite foldl_add_result. cbn [fst snd].
  rewrite (right_id_L ∅ (∪)). f_equal. destruct X; [|done].
  cbn. by rewrite elements_empty.
Qed.


(** What the search loop of the handler returns is the deduplication of
    the results that were not [None]. *)
Lemma search_loop_dedup search_queries (s : state W) acc s' :
  search_loop C search_queries (∅, []) s = (Return acc, s') →
  ∃ evs, trace s' = trace s ++ evs ∧ acc = dedup_acc C (found evs).
Proof.
  intros Hrun. apply search_loop_events in Hrun as (evs & Htr & _ & _ & ->).
  by exists evs.
Qed.

Lemma is_None_not_truthy v : is_None v = true → py_truthy v = false.
Proof. by destruct v. Qed.

Lemma find_page_try_run data (s : state W) :
  try_run C data s (find_page_try C data s).
Proof.
  unfold find_page_try.
  destruct data as [| | | | |d];
    try (apply TryNoGet; intros d; discriminate).
  cbn [items_of]. unfold bind at 1. unfold ret at 1.
  destruct (is_None (dict_get d "url")) eqn:Hurl; [by eapply TryMissingUrl|].
  destruct (is_None (dict_get d "query")) eqn:Hquery; [by eapply TryMissingQuery|].
  unfold is_valid_url. unfold bind at 1. unfold bind at 1.
  destruct (call (validators_url C _) _ s) as [[[|]|e] s1] eqn:Hv; cbn [ret negb];
    [|by eapply TryInvalidUrl|by eapply TryUrlRaises].
  unfold bind at 1.
  destruct (call (is_valid_query C _) _ s1) as [[[|]|e] s2] eqn:Hq; cbn [ret negb];
    [|by eapply TryInvalidQuery|by eapply TryQueryRaises].
  assert (validated C (dict_get d "url") (dict_get d "query") s s2) as Hval
    by (split_and!; eauto).
  unfold bind at 1.
  destruct (call (is_user_searching C _ _) _ s2) as [[v|e] s3] eqn:Hc;
    [|by eapply TryClassifyRaises].
  destruct (py_truthy v) eqn:Hv3; cbn [negb].
  - assert (is_None v = false) as ->.
    { destruct (is_None v) eqn:Hn; [|done]. apply is_None_not_truthy in Hn. congruence. }
    eapply TrySearching; [done..|].
    unfold bind at 1.
    destruct (call (get_search_queries C _ _) _ s3) as [[qs|e] s4] eqn:He;
      [|by eapply SearchingExpandRaises].
    unfold bind at 1.
    destruct (search_loop C qs (∅, []) s4) as [[acc|e] s5] eqn:Hs;
      [|by eapply SearchingSearchRaises].
    destruct (acc.2) as [|c L] eqn:Hacc.
    { change (Z.of_nat (length (@nil pyval)) <=? 0) with true. cbn [ret].
      by eapply SearchingNoCandidates. }
    assert ((Z.of_nat (length (c :: L)) <=? 0) = false) as ->
      by (apply Z.leb_gt; cbn [length]; lia).
    eapply SearchingVerifier; [done..|by rewrite Hacc|]. rewrite Hacc.
    unfold bind at 1.
    pose proof (verify_loop_run (dict_get d "query") (get_base_url C (dict_get d "url"))
                  0 (c :: L) None None s5) as Hrun.
    destruct (verify_loop C _ _ 0 (c :: L) None None s5) as [[bound|e] s6] eqn:Hl;
      [|by eapply VerifierLoopRaises].
    pose proof (loop_run_bound _ _ _ _ _ _ _ _ _ Hrun) as [[link Hlink] [content Hcontent]].
    { left. cbn. lia. }
    destruct bound as [rl pc]. cbn in Hlink, Hcontent. subst rl pc. cbn [fst snd].
    destruct (py_eq link (PyStr "None") || is_None link) eqn:Hnone.
    { by eapply VerifierNoLink. }
    unfold bind at 1.
    destruct (call (gen_customer_response C _ _ _ _) _ s6) as [[m|e] s7] eqn:Hg.
    + by eapply VerifierGrounded.
    + by eapply VerifierSynthRaises.
  - unfold bind at 1.
    destruct (call (gen_unfocused_response C _ _) _ s3) as [[m|e] s4] eqn:Hu.
    + by eapply TryUnfocused.
    + by eapply TryUnfocusedRaises.
Qed.


Lemma is_search_select_nonempty e : is_search e → select_nonempty e.
Proof. by destruct e. Qed.

Ltac inv_run :=
  repeat match goal with
  | H : try_run _ _ _ _ |- _ => inversion H; clear H; subst
  | H : searching_run _ _ _ _ _ |- _ => inversion H; clear H; subst
  | H : verifier_run _ _ _ _ _ _ |- _ => inversion H; clear H; subst
  | H : validated _ _ _ _ _ |- _ => destruct H as (? & ? & ? & ? & ?)
  end.

Ltac inv_calls :=
  repeat match goal with
  | H : call _ _ _ = _ |- _ =>
      apply call_inv in H; destruct H as (? & ? & ->); cbn [trace world] in *
  | H : search_loop _ _ _ _ = (_, _) |- _ =>
      apply search_loop_events in H;
      let evs := fresh "search_evs" in
      let Htr := fresh "Hsearch_tr" in
      destruct H as (evs & Htr & ? & ? & ?); cbn [trace world] in Htr
  | H : loop_run _ _ _ _ _ _ _ _ _ |- _ =>
      apply loop_run_events in H;
      let evs := fresh "loop_evs" in
      let Htr := fresh "Hloop_tr" in
      destruct H as (evs & Htr & ? & ? & ? & ?); cbn [trace world fst snd] in Htr
  end.

Ltac use_traces :=
  repeat match goal with
  | H : trace ?s = _ |- _ => rewrite H in *; clear H
  end.

Ltac run_cases :=
  inv_run; inv_calls; use_traces; cbn [trace world fst snd app] in *;
  rewrite <- ?app_assoc in *; cbn [app] in *.

(** C10: every call of [get_relevant_result] made by the handler is given a
    list with at least one candidate.  The body of the loop only runs when
    the iterator index is inside the list. *)
Theorem find_page_select_nonempty data w :
  Forall select_nonempty (trace (find_page C data (mkState w [])).2).
Proof.
  unfold find_page.
  pose proof (find_page_try_run data (mkState w [])) as Hrun.
  destruct (find_page_try C data (mkState w [])) as [[r|e] s']; cbn [snd].
  all: run_cases.
  all: repeat first [apply Forall_nil_2 | apply Forall_cons_2 | apply Forall_app_2];
         try done.
  all: by eapply Forall_impl; [eassumption|apply is_search_select_nonempty].
Qed.


(** Membership in a trace, taken apart: the named events are compared with
    the one looked for, and an event of another kind cannot be in the part
    of the trace written by a loop. *)
Lemma in_search_events e evs : Forall is_search evs → In e evs → is_search e.
Proof. intros Hall Hin. by apply (proj1 (List.Forall_forall _ _) Hall). Qed.

Lemma in_verifier_events e evs : Forall is_verifier evs → In e evs → is_verifier e.
Proof. intros Hall Hin. by apply (proj1 (List.Forall_forall _ _) Hall). Qed.

Ltac in_trace :=
  repeat match goal with
  | H : In _ (_ ++ _) |- _ => apply in_app_or in H
  | H : In _ (_ :: _) |- _ => cbn [In] in H
  | H : In _ [] |- _ => destruct H
  | H : _ ∨ _ |- _ => destruct H
  | H : False |- _ => destruct H
  | H : @eq event _ _ |- _ => discriminate H
  | H : @eq event _ _ |- _ => injection H as H; subst
  | H : @eq (outcome _) _ _ |- _ => discriminate H
  | H : @eq (outcome _) _ _ |- _ => injection H as H; subst
  | H : In ?e ?evs, Hall : Forall is_search ?evs |- _ =>
      exfalso; exact (in_search_events _ _ Hall H)
  | H : In ?e ?evs, Hall : Forall is_verifier ?evs |- _ =>
      exfalso; exact (in_verifier_events _ _ Hall H)
  end.

Ltac in_goal :=
  repeat first
    [ eassumption
    | left; reflexivity
    | right
    | apply in_or_app; first [left; eassumption | right] ].

(** C9: the url is checked before the query.  A body without a url is
    answered 401, whether or not the query is there; when both parameters
    are there and the url is not valid the answer is 421, and the query
    validator is not even asked. *)
Theorem find_page_url_checked_first d (s : state W) :
  (is_None (dict_get d "url") = true →
   find_page C (PyDict d) s =
   (mkResponse (jsonify_error "Missing url parameter.") 401, s)) ∧
  (∀ w',
     is_None (dict_get d "url") = false →
     is_None (dict_get d "query") = false →
     validators_url C (dict_get d "url") (world s) = (Return false, w') →
     find_page C (PyDict d) s =
     (mkResponse (jsonify_error "Invalid URL.") 421,
      mkState w' (trace s ++ [EvValidUrl (dict_get d "url") (Return false)]))).
Proof.
  split.
  - intros Hurl. unfold find_page, find_page_try. cbn [items_of].
    unfold bind, ret. by rewrite Hurl.
  - intros w' Hurl Hquery Hvalid. unfold find_page, find_page_try. cbn [items_of].
    unfold bind at 1. unfold ret at 1. rewrite Hurl, Hquery.
    unfold is_valid_url, bind, call. by rewrite Hvalid.
Qed.

(** C4, as amended: when the classifier returns [False] and
    [gen_unfocused_response] returns [m], the answer is 200 with a null link
    and [m] as the message, and neither a search nor a fetch was made.  The
    handler passes [m] on as it is, empty or not. *)
Theorem not_searching_unfocused_200 data w query url query' url' m :
  let out := find_page C data (mkState w []) in
  In (EvClassify query url (Return (PyBool false))) (trace out.2) →
  In (EvUnfocused query' url' (Return m)) (trace out.2) →
  out.1 = mkResponse (jsonify_link PyNone m) 200 ∧
  Forall no_search_no_fetch (trace out.2).
Proof.
  cbn zeta. unfold find_page.
  pose proof (find_page_try_run data (mkState w [])) as Hrun.
  destruct (find_page_try C data (mkState w [])) as [[r|e] s']; cbn [fst snd].
  all: intros Hclass Hunf; run_cases; in_trace.
  split; [done|]. by repeat constructor.
Qed.

(** What the handler does when the classifier answers [None]: [not None]
    is true, so the request is answered like one that is not a search. *)
Lemma undecided_unfocused_200 data w query url query' url' m :
  let out := find_page C data (mkState w []) in
  In (EvClassify query url (Return PyNone)) (trace out.2) →
  In (EvUnfocused query' url' (Return m)) (trace out.2) →
  out.1 = mkResponse (jsonify_link PyNone m) 200.
Proof.
  cbn zeta. unfold find_page.
  pose proof (find_page_try_run data (mkState w [])) as Hrun.
  destruct (find_page_try C data (mkState w [])) as [[r|e] s']; cbn [fst snd].
  all: intros Hclass Hunf; run_cases; in_trace.
  done.
Qed.


(** C5, as amended: when the fetch of a selected link returned a content,
    the link being neither [None] nor the text ['None'], and the call of
    [gen_customer_response] did not raise, the answer is 200 with that very
    link, and its message is what [gen_customer_response] returned for that
    link and that content. *)
Theorem fetched_candidate_returned d w link content :
  let query := dict_get d "query" in
  let base_url := get_base_url C (dict_get d "url") in
  let out := find_page C (PyDict d) (mkState w []) in
  In (EvFetch link (Return content)) (trace out.2) →
  is_None content = false →
  py_eq link (PyStr "None") || is_None link = false →
  (∀ q b l c e, ¬ In (EvGrounded q b l c (Raise e)) (trace out.2)) →
  ∃ m,
    out.1 = mkResponse (jsonify_link link m) 200 ∧
    In (EvGrounded query base_url link content (Return m)) (trace out.2).
Proof.
  cbn zeta. unfold find_page.
  pose proof (find_page_try_run (PyDict d) (mkState w [])) as Hrun.
  destruct (find_page_try C (PyDict d) (mkState w [])) as [[r|e] s']; cbn [fst snd].
  all: intros Hfetch Hcontent Hlink Hsynth; inv_run.
  all: repeat match goal with H : PyDict _ = PyDict _ |- _ => injection H as <- end.
  all: repeat match goal with
       | H : loop_run _ _ _ _ _ _ _ _ _ |- _ =>
           apply loop_run_events in H;
           destruct H as (loop_evs & Hloop_tr & Hver & _ & _ & Hsucc);
           cbn [trace world fst snd] in Hloop_tr, Hsucc
       end.
  all: run_cases; in_trace.
  all: try match goal with
       | Hin : In (EvFetch _ _) ?evs, H : ∀ _ _, In _ ?evs → _ |- _ =>
           specialize (H _ _ Hin Hcontent); try discriminate H;
           injection H as <- <-
       end.
  all: try congruence.
  - eexists. split; [done|]. in_goal.
  - exfalso. eapply Hsynth. in_goal.
Qed.


Lemma found_none evs :
  (∀ search r, In (EvSearch search r) evs → r = Return PyNone) → found evs = [].
Proof.
  induction evs as [|e evs IH]; intros Hall; [done|].
  unfold found in *. cbn [omap list_omap].
  rewrite IH by (intros ? ? ?; eapply Hall; by right).
  destruct e as [| | | | |search r| | |]; try done.
  by rewrite (Hall search r) by by left.
Qed.

Lemma is_search_not_verifier e : is_search e → ¬ is_verifier e.
Proof. destruct e; cbn; tauto. Qed.

(** C7: a request classified as a search whose expansion is empty, or whose
    searches all returned [None], is answered 423, and neither the selector
    nor the fetcher was called. *)
Theorem no_candidates_423 data w query url v query' base_url search_queries :
  let out := find_page C data (mkState w []) in
  In (EvClassify query url (Return v)) (trace out.2) →
  py_truthy v = true →
  In (EvExpand query' base_url (Return search_queries)) (trace out.2) →
  search_queries = [] ∨
    (∀ search r, In (EvSearch search r) (trace out.2) → r = Return PyNone) →
  out.1 = mkResponse (jsonify_error "No relevant links found.") 423 ∧
  Forall (fun e => ¬ is_verifier e) (trace out.2).
Proof.
  cbn zeta. unfold find_page.
  pose proof (find_page_try_run data (mkState w [])) as Hrun.
  destruct (find_page_try C data (mkState w [])) as [[r|e] s']; cbn [fst snd].
  all: intros Hclass Hv Hexpand Hnone; run_cases.
  all: clear Hclass; destruct Hnone as [->|Hnone]; in_trace.
  all: assert (found search_evs = [] ∧
               ∀ search e, ¬ In (EvSearch search (Raise e)) search_evs)
         as [Hfound Hraise];
    [first
       [ match goal with
         | H : (length ?evs ≤ length [])%nat |- _ =>
             destruct evs; [split; [done|intros ? ? []]|cbn in H; lia]
         end
       | split;
         [ apply found_none; intros ? ? ?; eapply Hnone; in_goal
         | intros search err Hin;
           assert (Raise err = Return PyNone) by (eapply Hnone; in_goal);
           discriminate ] ]
    |].
  all: try match goal with
       | H : ∃ _, In (EvSearch _ (Raise _)) _ |- _ =>
           destruct H as [? H]; by apply Hraise in H
       end.
  all: rewrite Hfound in *; cbn [foldl fst snd] in *; try done.
  all: split; [done|].
  all: repeat first [apply Forall_nil_2 | apply Forall_cons_2 | apply Forall_app_2];
         try (cbn; tauto).
  all: by eapply Forall_impl; [eassumption|apply is_search_not_verifier].
Qed.


(** C8: a search that returns [None] changes nothing but the trace: the
    loop goes on with the queries after it and with the candidates collected
    before it, and what it returns in the end is the deduplication of the
    results of the other queries. *)
Theorem absent_result_skipped qs1 search qs2 acc (s : state W) acc1 s1 w1 :
  search_loop C qs1 acc s = (Return acc1, s1) →
  get_top_result C search (world s1) = (Return PyNone, w1) →
  let s1' := mkState w1 (trace s1 ++ [EvSearch search (Return PyNone)]) in
  search_loop C (qs1 ++ search :: qs2) acc s = search_loop C qs2 acc1 s1' ∧
  ∀ acc2 s2,
    search_loop C (qs1 ++ search :: qs2) acc s = (Return acc2, s2) →
    ∃ evs1 evs2,
      trace s2 = trace s ++ evs1 ++ EvSearch search (Return PyNone) :: evs2 ∧
      Forall is_search evs1 ∧ Forall is_search evs2 ∧
      acc2 = foldl (fun a x => add_result C x a) acc (found evs1 ++ found evs2).
Proof.
  intros Hqs1 Htop s1'.
  assert (search_loop C (qs1 ++ search :: qs2) acc s = search_loop C qs2 acc1 s1')
    as Hskip.
  { rewrite search_loop_app, Hqs1. cbn [search_loop]. unfold bind, call.
    by rewrite Htop. }
  split; [done|]. intros acc2 s2 Hrun. rewrite Hskip in Hrun.
  apply search_loop_events in Hqs1 as (evs1 & Htr1 & Hall1 & _ & ->).
  apply search_loop_events in Hrun as (evs2 & Htr2 & Hall2 & _ & ->).
  exists evs1, evs2. split_and!; [|done..|by rewrite foldl_app].
  rewrite Htr2. cbn [s1' trace]. rewrite Htr1.
  by rewrite <- !app_assoc.
Qed.

(** C6: the deduplication step does not depend on the order of the
    candidates, and deduplicating its own output changes nothing, provided
    [json.loads] reads back what [json.dumps] wrote for the candidates at
    hand.  Candidate sets are compared as the set of serializations and as
    lists up to a permutation. *)
Theorem dedup_idempotent_order_independent X Y :
  X ≡ₚ Y →
  ((dedup_acc C X).1 = (dedup_acc C Y).1 ∧ dedup C X ≡ₚ dedup C Y) ∧
  ((∀ x, In x X →
      json_dumps C (json_loads C (json_dumps C x)) = json_dumps C x) →
   (dedup_acc C (dedup C X)).1 = (dedup_acc C X).1 ∧
   dedup C (dedup C X) ≡ₚ dedup C X).
Proof.
  intros Hperm. unfold dedup. rewrite !dedup_acc_spec. cbn [fst snd].
  assert (list_to_set (json_dumps C <$> X)
          = (list_to_set (json_dumps C <$> Y) : gset string)) as Horder.
  { apply list_to_set_perm_L. by rewrite Hperm. }
  split; [by rewrite Horder|].
  intros Hround.
  assert (json_dumps C <$>
            (json_loads C <$> elements (list_to_set (json_dumps C <$> X) : gset string))
          = elements (list_to_set (json_dumps C <$> X) : gset string)) as Hsame.
  { rewrite <- list_fmap_compose. rewrite <- (list_fmap_id (elements _)) at 2.
    apply list_fmap_ext. intros i str Hin.
    apply list_elem_of_lookup_2, elem_of_elements, elem_of_list_to_set,
      list_elem_of_fmap in Hin as (x & -> & Hx).
    apply Hround. by apply list_elem_of_In. }
  rewrite Hsame, list_to_set_elements_L. done.
Qed.

(** The loop fetches at most once per candidate it was given: every round
    of the loop takes one item out of the list. *)
Lemma verify_loop_fetches_at_most query base_url L w :
  (length (fetched (trace (verify_loop C query base_url 0 L None None
                             (mkState w [])).2)) ≤ length L)%nat.
Proof.
  pose proof (verify_loop_run query base_url 0 L None None (mkState w [])) as Hrun.
  apply loop_run_events in Hrun as (evs & -> & _ & _ & Hlen & _).
  cbn [trace app]. lia.
Qed.


(** ** More on the two loops *)

Lemma searched_app tr1 tr2 : searched (tr1 ++ tr2) = searched tr1 ++ searched tr2.
Proof. apply omap_app. Qed.

Lemma selections_app tr1 tr2 :
  selections (tr1 ++ tr2) = selections tr1 ++ selections tr2.
Proof. apply omap_app. Qed.

(** The search loop asks once per query, in the order of the queries, and
    stops at the first search that raises. *)
Lemma search_loop_facts search_queries acc (s : state W) out s' :
  search_loop C search_queries acc s = (out, s') →
  ∃ evs,
    trace s' = trace s ++ evs ∧
    Forall is_search evs ∧
    match out with
    | Return acc' =>
        acc' = foldl (fun a x => add_result C x a) acc (found evs) ∧
        searched evs = search_queries ∧
        Forall returned evs
    | Raise e =>
        ∃ evs0 search,
          evs = evs0 ++ [EvSearch search (Raise e)] ∧
          Forall returned evs0 ∧
          searched evs `prefix_of` search_queries
    end.
Proof.
  revert acc s. induction search_queries as [|search qs IH]; intros acc s Hrun.
  - injection Hrun as <- <-. exists []. by rewrite app_nil_r.
  - cbn [search_loop] in Hrun. unfold bind, call in Hrun.
    destruct (get_top_result C search (world s)) as [[c|e] w1] eqn:Htop.
    + assert (∃ acc1, search_loop C qs acc1
                        (mkState w1 (trace s ++ [EvSearch search (Return c)]))
                      = (out, s') ∧
                      foldl (fun a x => add_result C x a) acc
                        (found [EvSearch search (Return c)]) = acc1)
        as (acc1 & Hrun' & Hacc1).
      { cbn. destruct (is_None c); eauto. }
      apply IH in Hrun' as (evs & Htr & Hall & Hout).
      cbn [trace] in Htr. rewrite <- app_assoc in Htr.
      exists (EvSearch search (Return c) :: evs).
      split_and!; [done|by constructor|].
      destruct out as [acc'|e].
      * destruct Hout as (-> & Hq & Hret). split_and!.
        -- change (EvSearch search (Return c) :: evs)
             with ([EvSearch search (Return c)] ++ evs).
           by rewrite found_app, foldl_app, Hacc1.
        -- cbn. by rewrite <- Hq.
        -- by constructor.
      * destruct Hout as (evs0 & q & -> & Hret & Hpre).
        exists (EvSearch search (Return c) :: evs0), q.
        split_and!; [done|by constructor|]. cbn. by apply prefix_cons.
    + injection Hrun as <- <-. exists [EvSearch search (Raise e)].
      split_and!; [done|by repeat constructor|].
      exists [], search. split_and!; [done|constructor|].
      cbn. apply prefix_cons, prefix_nil.
Qed.

Lemma list_remove_sublist x l l' : list_remove x l = Some l' → sublist l' l.
Proof.
  revert l'. induction l as [|y l IH]; intros l' Hrm; cbn in Hrm; [done|].
  destruct (py_eq y x).
  - injection Hrm as <-. by apply sublist_cons.
  - destruct (list_remove x l) as [l0|]; cbn in Hrm; [|done].
    injection Hrm as <-. by apply sublist_skip, IH.
Qed.

(** One item of the list is gone after [remove], the others are there, in
    the same order. *)
Lemma list_remove_permutation x l l' :
  list_remove x l = Some l' → ∃ y, py_eq y x = true ∧ l ≡ₚ y :: l'.
Proof.
  revert l'. induction l as [|z l IH]; intros l' Hrm; cbn in Hrm; [done|].
  destruct (py_eq z x) eqn:Hz.
  - injection Hrm as <-. by exists z.
  - destruct (list_remove x l) as [l0|]; cbn in Hrm; [|done].
    injection Hrm as <-. destruct (IH l0 eq_refl) as (y & Hy & Hperm).
    exists y. split; [done|]. rewrite Hperm. apply perm_swap.
Qed.


Lemma Forall_sublist {A} (P : A → Prop) (l' l : list A) :
  sublist l' l → Forall P l → Forall P l'.
Proof.
  induction 1 as [|x l1 l2 _ IH|x l1 l2 _ IH]; intros Hall; [done| |].
  - apply Forall_cons in Hall as [? ?]. constructor; auto.
  - apply Forall_cons in Hall as [? ?]. auto.
Qed.

Ltac split6 := split; [|split; [|split; [|split; [|split]]]].

(** What one run of the verifier loop writes to the trace, round by
    round. *)
Lemma loop_run_facts query base_url idx L rl pc (s : state W) out :
  loop_run C query base_url idx L rl pc s out →
  ∃ evs,
    trace out.2 = trace s ++ evs ∧
    Forall is_verifier evs ∧
    (2 * length (fetched evs) ≤ length L - idx + 1)%nat ∧
    (∀ k L', selections evs !! k = Some L' →
             sublist L' L ∧ (length L' + k = length L)%nat) ∧
    (∀ tr1 link r tr2,
       evs = tr1 ++ EvFetch link r :: tr2 →
       ∃ tr0 L', tr1 = tr0 ++ [EvSelect query base_url L' (Return link)]) ∧
    match out.1 with
    | Return bound =>
        Forall returned evs ∧
        ((evs = [] ∧ bound = (rl, pc)) ∨
         ∃ tr0 L' link content,
           evs = tr0 ++ [EvSelect query base_url L' (Return link);
                         EvFetch link (Return content)] ∧
           bound = (Some link, Some content))
    | Raise e =>
        (∃ tr0 ev, evs = tr0 ++ [ev] ∧ raised ev = Some e ∧ Forall returned tr0) ∨
        (Forall returned evs ∧ ¬ Forall py_wf L)
    end.
Proof.
  induction 1 as
    [idx L rl pc s Hidx
    |idx L rl pc s result e w1 Hidx Hsel
    |idx L rl pc s result link w1 e w2 Hidx Hsel Hfetch
    |idx L rl pc s result link w1 content w2 Hidx Hsel Hfetch Hc
    |idx L rl pc s result link w1 content w2 Hidx Hsel Hfetch Hc Hrm
    |idx L rl pc s result link w1 content w2 L' out Hidx Hsel Hfetch Hc Hrm Hrun IH].
  - exists []. cbn. rewrite app_nil_r.
    split6; [done|constructor|lia|by intros [|?] ?| |split; [constructor|by left]].
    intros [|? ?] ? ? ? ?; discriminate.
  - pose proof (lookup_lt_Some _ _ _ Hidx).
    eexists. cbn. split6; [done|by repeat constructor|cbn; lia| | |].
    + intros [|k] L' [=]; subst. split; [done|lia].
    + intros [|? [|? ?]] ? ? ? [=].
    + left. exists [], (EvSelect query base_url L (Raise e)). by split_and!.
  - pose proof (lookup_lt_Some _ _ _ Hidx).
    eexists. cbn. split6; [done|by repeat constructor|cbn; lia| | |].
    + intros [|k] L' [=]; subst. split; [done|lia].
    + intros [|? [|? [|? ?]]] ? ? ? [=]; subst. by exists [], L.
    + left. exists [EvSelect query base_url L (Return link)], (EvFetch link (Raise e)).
      split_and!; [done..|by repeat constructor].
  - pose proof (lookup_lt_Some _ _ _ Hidx).
    eexists. cbn. split6; [done|by repeat constructor|cbn; lia| | |].
    + intros [|k] L' [=]; subst. split; [done|lia].
    + intros [|? [|? [|? ?]]] ? ? ? [=]; subst. by exists [], L.
    + split; [by repeat constructor|]. right. by exists [], L, link, content.
  - pose proof (lookup_lt_Some _ _ _ Hidx).
    eexists. cbn. split6; [done|by repeat constructor|cbn; lia| | |].
    + intros [|k] L' [=]; subst. split; [done|lia].
    + intros [|? [|? [|? ?]]] ? ? ? [=]; subst. by exists [], L.
    + right. split; [by repeat constructor|]. intros Hwf.
      assert (py_wf result) as Hres.
      { eapply (proj1 (Forall_forall _ _) Hwf). by eapply list_elem_of_lookup_2. }
      destruct (list_remove_item _ _ _ Hidx Hres) as [? ?]. congruence.
  - destruct IH as (evs & Htr & Hver & Hlen & Hsel' & Halt & Hend).
    pose proof (lookup_lt_Some _ _ _ Hidx) as Hlt.
    pose proof (list_remove_sublist _ _ _ Hrm) as Hsub.
    apply list_remove_length in Hrm.
    exists (EvSelect query base_url L (Return link)
            :: EvFetch link (Return content) :: evs).
    cbn [trace] in Htr. rewrite <- app_assoc in Htr. cbn [app] in Htr.
    split6; [done|by repeat constructor| | | |].
    + unfold fetched in *. cbn. lia.
    + intros [|k] L0 Hk; cbn in Hk.
      * injection Hk as <-. split; [done|lia].
      * apply Hsel' in Hk as [Hsub0 Hlen0]. split; [by etrans|lia].
    + intros [|a [|b tr1]] l r tr2 Heq; cbn in Heq; [discriminate| |].
      * injection Heq as <- <- <- <-. by exists [], L.
      * injection Heq as <- <- Hevs. apply Halt in Hevs as (tr0 & L0 & ->).
        by exists (EvSelect query base_url L (Return link)
                   :: EvFetch link (Return content) :: tr0), L0.
    + destruct (out.1) as [bound|e].
      * destruct Hend as [Hret Hend]. split; [by repeat constructor|]. right.
        destruct Hend as [[-> ->]|(tr0 & L0 & l & c & -> & ->)].
        -- by exists [], L, link, content.
        -- by exists (EvSelect query base_url L (Return link)
                      :: EvFetch link (Return content) :: tr0), L0, l, c.
      * destruct Hend as [(tr0 & ev & -> & Hev & Hret)|[Hret Hwf]].
        -- left. exists (EvSelect query base_url L (Return link)
                          :: EvFetch link (Return content) :: tr0), ev.
           split_and!; [done..|by repeat constructor].
        -- right. split; [by repeat constructor|].
           intros HwfL. apply Hwf. by eapply Forall_sublist.
Qed.


(** ** The phases of a run *)

Lemma split_middle {A} (l1 l2 tr1 tr2 : list A) x :
  l1 ++ l2 = tr1 ++ x :: tr2 →
  (∃ j, l1 = tr1 ++ x :: j ∧ tr2 = j ++ l2) ∨
  (∃ j, tr1 = l1 ++ j ∧ l2 = j ++ x :: tr2).
Proof.
  intros [(k & -> & Hk)|(k & -> & ->)]%app_eq_inv; [|right; by exists k].
  destruct k as [|y k]; cbn in Hk.
  - right. exists []. rewrite !app_nil_r. split; [done|]. by rewrite <- Hk.
  - injection Hk as <- ->. left. by exists k.
Qed.

Lemma not_in_part {A} (P : A → Prop) l tr1 x j :
  Forall P l → ¬ P x → l ≠ tr1 ++ x :: j.
Proof.
  intros Hall Hx ->. apply Forall_app in Hall as [_ Hall].
  apply Forall_cons in Hall as [? _]. done.
Qed.

Lemma dedup_length X : (length (dedup C X) ≤ length X)%nat.
Proof.
  unfold dedup. rewrite dedup_acc_spec. cbn [snd]. rewrite length_fmap.
  change (length (elements ?S)) with (size S).
  induction X as [|x X IH]; cbn; [by rewrite size_empty|].
  rewrite size_union_alt, size_singleton.
  etrans; [|apply le_n_S, IH]. cbn. apply le_n_S, subseteq_size.
  apply subseteq_difference_l. done.
Qed.

Lemma dedup_nil X : dedup C X = [] ↔ X = [].
Proof.
  split; [|by intros ->].
  unfold dedup. rewrite dedup_acc_spec. cbn [snd].
  intros Hnil%fmap_nil_inv%elements_empty_inv.
  destruct X as [|x X]; [done|]. cbn in Hnil.
  exfalso. apply (not_elem_of_empty (C:=gset string) (json_dumps C x)).
  rewrite <- Hnil. apply elem_of_union_l, elem_of_singleton. done.
Qed.


Ltac inv_calls2 :=
  repeat match goal with
  | H : call _ _ _ = _ |- _ =>
      apply call_inv in H; destruct H as (? & ? & ->); cbn [trace world] in *
  | H : search_loop _ _ _ _ = (_, _) |- _ =>
      apply search_loop_facts in H;
      let evs := fresh "search_evs" in
      let Htr := fresh "Hsearch_tr" in
      let Hall := fresh "Hsearch" in
      let Hout := fresh "Hsearch_out" in
      destruct H as (evs & Htr & Hall & Hout); cbn [trace world] in Htr
  | H : loop_run _ _ _ _ _ _ _ _ _ |- _ =>
      apply loop_run_facts in H;
      let evs := fresh "loop_evs" in
      let Htr := fresh "Hloop_tr" in
      let Hver := fresh "Hver" in
      let Hbound := fresh "Hbound" in
      let Hlists := fresh "Hlists" in
      let Halt := fresh "Halt" in
      let Hend := fresh "Hend" in
      destruct H as (evs & Htr & Hver & Hbound & Hlists & Halt & Hend);
      cbn [trace world fst snd] in Htr, Hend
  end.

Ltac run_cases2 :=
  inv_run; inv_calls2; use_traces; cbn [trace world fst snd app] in *;
  rewrite <- ?app_assoc in *; cbn [app] in *.

(** A run goes through its phases in order: the calls before the searches,
    the searches, the rounds of the verifier loop, the grounded answer.  The
    list the loop starts from is the deduplication of what the searches
    found. *)
Lemma find_page_phases data w :
  let out := find_page C data (mkState w []) in
  ∃ front search_evs loop_evs back,
    trace out.2 = front ++ search_evs ++ loop_evs ++ back ∧
    Forall is_front front ∧ Forall is_search search_evs ∧
    Forall is_verifier loop_evs ∧ Forall is_grounded back ∧
    (loop_evs = [] ∨
     let L := dedup C (found search_evs) in
     (2 * length (fetched loop_evs) ≤ length L + 1)%nat ∧
     (∀ k L', selections loop_evs !! k = Some L' →
              sublist L' L ∧ (length L' + k = length L)%nat) ∧
     (∀ tr1 link r tr2,
        loop_evs = tr1 ++ EvFetch link r :: tr2 →
        ∃ tr0 query base_url L',
          tr1 = tr0 ++ [EvSelect query base_url L' (Return link)])).
Proof.
  cbn zeta. unfold find_page.
  pose proof (find_page_try_run data (mkState w [])) as Hrun.
  destruct (find_page_try C data (mkState w [])) as [[r|e] s']; cbn [fst snd].
  all: run_cases2.
  all: match goal with
       | |- ∃ f s l b, (?e1 :: ?e2 :: ?e3 :: ?e4 :: ?se ++ ?le ++ ?bk) = _ ∧ _ =>
           exists [e1; e2; e3; e4], se, le, bk
       | |- ∃ f s l b, (?e1 :: ?e2 :: ?e3 :: ?e4 :: ?se ++ ?le) = _ ∧ _ =>
           exists [e1; e2; e3; e4], se, le, []
       | |- ∃ f s l b, (?e1 :: ?e2 :: ?e3 :: ?e4 :: ?se) = _ ∧ _ =>
           exists [e1; e2; e3; e4], se, [], []
       | |- ∃ f s l b, ?tr = _ ∧ _ => exists tr, [], [], []
       end.
  all: rewrite ?app_nil_r; cbn [app].
  all: split; [reflexivity|].
  all: split; [by repeat constructor|].
  all: split; [first [done|constructor]|].
  all: split; [first [done|constructor]|].
  all: split; [by repeat constructor|].
  all: try (left; reflexivity).
  all: right; cbn zeta.
  all: destruct Hsearch_out as (-> & _ & _).
  all: unfold dedup, dedup_acc.
  all: rewrite Nat.sub_0_r in Hbound.
  all: split; [exact Hbound|split; [exact Hlists|]].
  all: intros tr1 l r tr2 Heq; apply Halt in Heq as (tr0 & L' & ->); eauto.
Qed.


Lemma omap_none {A B} (f : A → option B) (P : A → Prop) l :
  (∀ x, P x → f x = None) → Forall P l → omap f l = [].
Proof.
  intros Hf. induction 1 as [|x l Hx _ IH]; [done|].
  cbn. by rewrite (Hf x Hx).
Qed.

Lemma fetched_phases front search_evs loop_evs back :
  Forall is_front front → Forall is_search search_evs → Forall is_grounded back →
  fetched (front ++ search_evs ++ loop_evs ++ back) = fetched loop_evs.
Proof.
  intros Hf Hs Hb. unfold fetched. rewrite !omap_app.
  rewrite (omap_none _ is_front front), (omap_none _ is_search search_evs),
    (omap_none _ is_grounded back); [by rewrite app_nil_r|try done..];
    by intros [].
Qed.

Lemma selections_phases front search_evs loop_evs back :
  Forall is_front front → Forall is_search search_evs → Forall is_grounded back →
  selections (front ++ search_evs ++ loop_evs ++ back) = selections loop_evs.
Proof.
  intros Hf Hs Hb. unfold selections. rewrite !omap_app.
  rewrite (omap_none _ is_front front), (omap_none _ is_search search_evs),
    (omap_none _ is_grounded back); [by rewrite app_nil_r|try done..];
    by intros [].
Qed.

Lemma found_phases front search_evs loop_evs back :
  Forall is_front front → Forall is_verifier loop_evs → Forall is_grounded back →
  found (front ++ search_evs ++ loop_evs ++ back) = found search_evs.
Proof.
  intros Hf Hl Hb. unfold found. rewrite !omap_app.
  rewrite (omap_none _ is_front front), (omap_none _ is_verifier loop_evs),
    (omap_none _ is_grounded back); [by rewrite app_nil_r|try done..];
    by intros [].
Qed.

Lemma searched_phases front search_evs loop_evs back :
  Forall is_front front → Forall is_verifier loop_evs → Forall is_grounded back →
  searched (front ++ search_evs ++ loop_evs ++ back) = searched search_evs.
Proof.
  intros Hf Hl Hb. unfold searched. rewrite !omap_app.
  rewrite (omap_none _ is_front front), (omap_none _ is_verifier loop_evs),
    (omap_none _ is_grounded back); [by rewrite app_nil_r|try done..];
    by intros [].
Qed.

(** X1: with n deduplicated candidates the handler makes at most
    (n + 1) / 2 fetches.  Every round of the loop removes one item from the
    list and moves the iterator on by one, so the loop ends after half of
    the list. *)
Theorem fetches_at_most_half data w :
  let tr := trace (find_page C data (mkState w [])).2 in
  (2 * length (fetched tr) ≤ length (dedup C (found tr)) + 1)%nat.
Proof.
  cbn zeta.
  destruct (find_page_phases data w)
    as (front & search_evs & loop_evs & back & -> & Hf & Hs & Hl & Hb & Hloop).
  rewrite fetched_phases, found_phases by done.
  destruct Hloop as [->|(Hbound & _ & _)]; [cbn; lia|done].
Qed.

(** X2: the lists shown to the selector.  The selection number k (counted
    from 0) is given the deduplicated candidates with k of them taken out:
    the list is a sublist of the candidates, in their order, k items
    shorter. *)
Theorem selector_lists_shrink data w k L' :
  let tr := trace (find_page C data (mkState w [])).2 in
  selections tr !! k = Some L' →
  sublist L' (dedup C (found tr)) ∧
  (length L' + k = length (dedup C (found tr)))%nat.
Proof.
  cbn zeta.
  destruct (find_page_phases data w)
    as (front & search_evs & loop_evs & back & -> & Hf & Hs & Hl & Hb & Hloop).
  rewrite selections_phases, found_phases by done.
  destruct Hloop as [->|(_ & Hlists & _)]; [done|apply Hlists].
Qed.

(** X3: every call of [fetch_page_content] comes right after a call of
    [get_relevant_result] that returned, and it is given what that call
    returned; nothing else is ever fetched. *)
Theorem fetch_follows_selection data w tr1 link r tr2 :
  trace (find_page C data (mkState w [])).2 = tr1 ++ EvFetch link r :: tr2 →
  ∃ tr0 query base_url L',
    tr1 = tr0 ++ [EvSelect query base_url L' (Return link)].
Proof.
  destruct (find_page_phases data w)
    as (front & search_evs & loop_evs & back & -> & Hf & Hs & Hl & Hb & Hloop).
  intros [(j & Hfront & _)|(j1 & -> & Hrest)]%split_middle.
  { destruct (not_in_part is_front _ _ (EvFetch link r) _ Hf (fun F => F) Hfront). }
  apply split_middle in Hrest as [(j & Hsearch & _)|(j2 & -> & Hrest)].
  { destruct (not_in_part is_search _ _ (EvFetch link r) _ Hs (fun F => F) Hsearch). }
  apply split_middle in Hrest as [(j & Hloop_evs & _)|(j3 & _ & Hback)].
  - destruct Hloop as [->|(_ & _ & Halt)].
    { by destruct j2. }
    apply Halt in Hloop_evs as (tr0 & query & base_url & L0 & ->).
    exists (front ++ search_evs ++ tr0), query, base_url, L0.
    by rewrite <- !app_assoc.
  - destruct (not_in_part is_grounded _ _ (EvFetch link r) _ Hb (fun F => F) Hback).
Qed.


(** ** How a run ends *)

Ltac snoc_witness :=
  match goal with
  | |- ∃ tr0 ev, [?a] = _ ∧ _ => exists [], a
  | |- ∃ tr0 ev, [?a; ?b] = _ ∧ _ => exists [a], b
  | |- ∃ tr0 ev, [?a; ?b; ?c] = _ ∧ _ => exists [a; b], c
  | |- ∃ tr0 ev, [?a; ?b; ?c; ?d] = _ ∧ _ => exists [a; b; c], d
  | |- ∃ tr0 ev, (?a :: ?b :: ?c :: ?d :: ?l1 ++ [?x]) = _ ∧ _ =>
      exists (a :: b :: c :: d :: l1), x
  | |- ∃ tr0 ev, (?a :: ?b :: ?c :: ?d :: ?l1 ++ ?l2 ++ [?x]) = _ ∧ _ =>
      exists (a :: b :: c :: d :: l1 ++ l2), x
  | |- ∃ tr0 ev, (?a :: ?b :: ?c :: ?d :: ?l1 ++ ?l2 ++ [?p; ?q; ?x]) = _ ∧ _ =>
      exists (a :: b :: c :: d :: l1 ++ l2 ++ [p; q]), x
  end.

Ltac all_returned :=
  repeat match goal with
  | H : Forall returned (_ ++ _) |- _ => apply Forall_app in H as [? ?]
  end;
  repeat first
    [ apply Forall_nil_2
    | apply Forall_cons_2; [reflexivity|]
    | apply Forall_app_2
    | assumption ].

(** A run either has no call that raised and does not answer 500, or it
    answers 500 with the text of the exception.  The exception is the one
    of the last call, with two exceptions that no call raises: the
    [AttributeError] of a body that is not an object, and the [ValueError] of
    [remove], which needs a candidate that is not a Python value. *)
Lemma find_page_ending data w :
  let out := find_page C data (mkState w []) in
  (Forall returned (trace out.2) ∧ status out.1 ≠ 500) ∨
  (∃ e, out.1 = mkResponse (jsonify_error e) 500 ∧
        ((∃ tr0 ev, trace out.2 = tr0 ++ [ev] ∧ raised ev = Some e ∧
                    Forall returned tr0) ∨
         (trace out.2 = [] ∧ ∀ d, data ≠ PyDict d) ∨
         (Forall returned (trace out.2) ∧ ¬ (∀ str, py_wf (json_loads C str))))).
Proof.
  cbn zeta. unfold find_page.
  pose proof (find_page_try_run data (mkState w [])) as Hrun.
  destruct (find_page_try C data (mkState w [])) as [[r|e] s']; cbn [fst snd].
  - left. run_cases2.
    all: repeat match goal with
         | H : _ ∧ _ |- _ => destruct H
         end.
    all: split; [all_returned|cbn; lia].
  - right. exists e. split; [done|]. run_cases2.
    all: repeat match goal with
         | H : _ ∧ _ |- _ => destruct H
         | H : ∃ _, _ |- _ => destruct H
         | H : _ ∨ _ |- _ => destruct H
         end; subst.
    all: rewrite <- ?app_assoc; cbn [app].
    all: try (right; left; by split).
    all: try (left; snoc_witness;
              split; [cbn [app]; by rewrite <- ?app_assoc|split; [done|all_returned]]).
    right. right. split; [all_returned|].
    intros Hwf. match goal with H : ¬ Forall py_wf _ |- _ => apply H end.
    change (foldl ?f (∅, []) ?X) with (dedup_acc C X).
    rewrite dedup_acc_spec. cbn [snd]. apply Forall_fmap, Forall_true. intros str. apply Hwf.
Qed.


(** X4: the handler stops at the first call that raises.  A call that
    raised is the last call of the run, every call before it returned, and
    the answer is 500 with the text of the exception as its error. *)
Theorem find_page_fails_fast data w ev e :
  let out := find_page C data (mkState w []) in
  In ev (trace out.2) →
  raised ev = Some e →
  out.1 = mkResponse (jsonify_error e) 500 ∧
  ∃ tr0, trace out.2 = tr0 ++ [ev] ∧ Forall returned tr0.
Proof.
  cbn zeta. intros Hin Hev.
  assert (∀ tr, Forall returned tr → ¬ In ev tr) as Hnot.
  { intros tr Hall Hin'. apply (proj1 (List.Forall_forall _ _) Hall) in Hin'.
    unfold returned in Hin'. congruence. }
  destruct (find_page_ending data w)
    as [[Hall _]|(e' & Hout & [(tr0 & ev' & Htr & Hev' & Hall)|[[Htr _]|[Hall _]]])].
  - by apply Hnot in Hall.
  - rewrite Htr in Hin. apply in_app_or in Hin as [Hin|[<-|[]]].
    + by apply Hnot in Hall.
    + split; [|by exists tr0]. rewrite Hout. congruence.
  - rewrite Htr in Hin. destruct Hin.
  - by apply Hnot in Hall.
Qed.

(** X5: for a body that is a JSON object, and when [json.loads] gives
    Python values, the handler answers 500 only because a call raised: the
    run ends with that call and the error is the text of its exception.  The
    500 of line 55 is never sent. *)
Theorem find_page_500_only_on_failure d w :
  let out := find_page C (PyDict d) (mkState w []) in
  (∀ str, py_wf (json_loads C str)) →
  status out.1 = 500 →
  ∃ tr0 ev e,
    trace out.2 = tr0 ++ [ev] ∧ raised ev = Some e ∧ Forall returned tr0 ∧
    out.1 = mkResponse (jsonify_error e) 500.
Proof.
  cbn zeta. intros Hwf Hstatus.
  destruct (find_page_ending (PyDict d) w)
    as [[_ Hnot]|(e' & Hout & [(tr0 & ev' & Htr & Hev' & Hall)|[[_ Hd]|[_ Hnwf]]])].
  - done.
  - by exists tr0, ev', e'.
  - by destruct (Hd d).
  - by destruct Hnwf.
Qed.

(** X6: what stands behind an answer with a link.  The link is what the
    last call of the selector returned, and the message was generated from
    what the fetch of that link returned, which is [None] when that fetch
    did not get the page. *)
Theorem answer_is_last_selection data w link m :
  let out := find_page C data (mkState w []) in
  out.1 = mkResponse (jsonify_link link m) 200 →
  is_None link = false →
  ∃ tr0 query base_url L content,
    trace out.2 =
    tr0 ++ [EvSelect query base_url L (Return link);
            EvFetch link (Return content);
            EvGrounded query base_url link content (Return m)].
Proof.
  cbn zeta. unfold find_page.
  pose proof (find_page_try_run data (mkState w [])) as Hrun.
  destruct (find_page_try C data (mkState w [])) as [[r|e] s']; cbn [fst snd].
  all: intros Hresp Hlink; try discriminate Hresp; subst r.
  all: inv_run; try discriminate Hlink.
  inv_calls2; use_traces; cbn [trace world fst snd app] in *.
  destruct Hend as [_ [[_ [=]]|(tr0 & L0 & l & c & -> & [= <- <-])]].
  rewrite <- !app_assoc. cbn [app].
  match goal with
  | |- ∃ _ _ _ _ _, (?a :: ?b :: ?c :: ?d0 :: ?se ++ ?t ++ _) = _ =>
      exists (a :: b :: c :: d0 :: se ++ t)
  end.
  eexists _, _, _, _. cbn [app]. by rewrite <- !app_assoc.
Qed.


(** X7: the handler answers 424 only after a selection that returned
    [None] or the text ['None']: the run ends with that selection and with
    the fetch of what it returned. *)
Theorem status_424_no_selection data w :
  let out := find_page C data (mkState w []) in
  status out.1 = 424 →
  ∃ tr0 query base_url L link content,
    trace out.2 = tr0 ++ [EvSelect query base_url L (Return link);
                          EvFetch link (Return content)] ∧
    py_eq link (PyStr "None") || is_None link = true.
Proof.
  cbn zeta. unfold find_page.
  pose proof (find_page_try_run data (mkState w [])) as Hrun.
  destruct (find_page_try C data (mkState w [])) as [[r|e] s']; cbn [fst snd].
  all: intros Hstatus; try discriminate Hstatus.
  all: inv_run; try discriminate Hstatus.
  inv_calls2; use_traces; cbn [trace world fst snd app] in *.
  destruct Hend as [_ [[_ [=]]|(tr0 & L0 & l & c & -> & [= <- <-])]].
  rewrite <- ?app_assoc. cbn [app].
  match goal with
  | |- ∃ _ _ _ _ _ _, (?a :: ?b :: ?c :: ?d0 :: ?se ++ ?t ++ _) = _ ∧ _ =>
      exists (a :: b :: c :: d0 :: se ++ t)
  end.
  eexists _, _, _, _, _. split; [|eassumption]. cbn [app]. by rewrite <- !app_assoc.
Qed.

(** X8: the handler answers 423 only when every search was made and none
    of them found anything: no search result in the run is other than
    [None], and neither the selector nor the fetcher was called. *)
Theorem status_423_nothing_found data w :
  let out := find_page C data (mkState w []) in
  status out.1 = 423 →
  found (trace out.2) = [] ∧
  Forall returned (trace out.2) ∧
  Forall (fun e => ¬ is_verifier e) (trace out.2) ∧
  ∃ query base_url,
    In (EvExpand query base_url (Return (searched (trace out.2)))) (trace out.2).
Proof.
  cbn zeta. unfold find_page.
  pose proof (find_page_try_run data (mkState w [])) as Hrun.
  destruct (find_page_try C data (mkState w [])) as [[r|e] s']; cbn [fst snd].
  all: intros Hstatus; try discriminate Hstatus.
  all: inv_run; try discriminate Hstatus.
  inv_calls2; use_traces; cbn [trace world fst snd app] in *.
  destruct Hsearch_out as (-> & <- & Hret).
  match goal with
  | H : (foldl _ _ ?X).2 = [] |- _ =>
      apply (proj1 (dedup_nil X)) in H
  end.
  change (found (_ :: _ :: _ :: _ :: search_evs)) with (found search_evs).
  change (searched (_ :: _ :: _ :: _ :: search_evs)) with (searched search_evs).
  split_and!.
  - done.
  - by repeat constructor.
  - repeat (constructor; [cbn; tauto|]).
    eapply Forall_impl; [exact Hsearch|apply is_search_not_verifier].
  - eexists _, _. do 3 right. left. reflexivity.
Qed.

Lemma is_front_not_pipeline_unless_expand e :
  is_front e → ¬ is_pipeline e ∨ ∃ query base_url r, e = EvExpand query base_url r.
Proof. destruct e; cbn; eauto; tauto. Qed.

(** X9: any answer of the classifier that Python takes for false, [False]
    as well as [None], [0] or the empty text, sends the request to
    [gen_unfocused_response] with the same query and url.  The answer is
    200 with a null link and the text returned, or 500 when that call
    raises; the expansion, the searches, the selector and the fetcher are
    not called. *)
Theorem falsy_intent_unfocused data w query url v :
  let out := find_page C data (mkState w []) in
  In (EvClassify query url (Return v)) (trace out.2) →
  py_truthy v = false →
  Forall (fun e => ¬ is_pipeline e) (trace out.2) ∧
  ((∃ m, In (EvUnfocused query url (Return m)) (trace out.2) ∧
         out.1 = mkResponse (jsonify_link PyNone m) 200) ∨
   (∃ e, In (EvUnfocused query url (Raise e)) (trace out.2) ∧
         out.1 = mkResponse (jsonify_error e) 500)).
Proof.
  cbn zeta. unfold find_page.
  pose proof (find_page_try_run data (mkState w [])) as Hrun.
  destruct (find_page_try C data (mkState w [])) as [[r|e] s']; cbn [fst snd].
  all: intros Hclass Hv; run_cases; in_trace; try congruence.
  - split; [repeat constructor; cbn; tauto|]. left. eexists. split; [|done]. in_goal.
  - split; [repeat constructor; cbn; tauto|]. right. eexists. split; [|done]. in_goal.
Qed.

Lemma searched_verifier l : Forall is_verifier l → searched l = [].
Proof. apply omap_none. by intros []. Qed.

(** X10: one search per query of the expansion, in the order of the
    expansion.  The queries searched are always the first ones of the
    expansion, and all of them when no search raised. *)
Theorem one_search_per_query data w query base_url search_queries :
  let tr := trace (find_page C data (mkState w [])).2 in
  In (EvExpand query base_url (Return search_queries)) tr →
  searched tr `prefix_of` search_queries ∧
  ((∀ search e, ¬ In (EvSearch search (Raise e)) tr) → searched tr = search_queries).
Proof.
  cbn zeta. unfold find_page.
  pose proof (find_page_try_run data (mkState w [])) as Hrun.
  destruct (find_page_try C data (mkState w [])) as [[r|e] s']; cbn [fst snd].
  all: intros Hexpand; run_cases2; in_trace.
  all: repeat match goal with
       | |- context [searched (?e :: ?r)] =>
           change (searched (e :: r)) with (searched r)
       end.
  all: try match goal with
       | H : _ = _ ∧ searched _ = _ ∧ _ |- _ => destruct H as (_ & <- & _)
       end.
  all: try match goal with
       | H : ∃ evs0 search, _ ∧ _ ∧ _ `prefix_of` _ |- _ =>
           destruct H as (evs0 & search & -> & _ & Hpre);
           (split; [exact Hpre|]);
           intros Hno; exfalso; eapply Hno; in_goal
       end.
  all: rewrite ?searched_app.
  all: try match goal with
       | H : Forall is_verifier ?l |- _ => rewrite (searched_verifier l H)
       end.
  all: try change (searched [EvGrounded _ _ _ _ _]) with (@nil pyval).
  all: by rewrite ?app_nil_r.
Qed.



(** X11: a rejection tells which check failed, and what had been called
    by then.  401 and 402 are answered before anything is called and leave
    the state as it was; 421 comes after the url validator alone; 422 after
    both validators, the url being valid.  No other call is ever made for
    such a request. *)
Theorem rejection_tells_the_check data w :
  let out := find_page C data (mkState w []) in
  status out.1 = 401 ∨ status out.1 = 402 ∨ status out.1 = 421 ∨ status out.1 = 422 →
  ∃ d, data = PyDict d ∧
    let url := dict_get d "url" in
    let query := dict_get d "query" in
    (out.1 = mkResponse (jsonify_error "Missing url parameter.") 401 ∧
     is_None url = true ∧ out.2 = mkState w []) ∨
    (out.1 = mkResponse (jsonify_error "Missing query parameter.") 402 ∧
     is_None url = false ∧ is_None query = true ∧ out.2 = mkState w []) ∨
    (out.1 = mkResponse (jsonify_error "Invalid URL.") 421 ∧
     is_None url = false ∧ is_None query = false ∧
     trace out.2 = [EvValidUrl url (Return false)]) ∨
    (out.1 = mkResponse (jsonify_error "Invalid query.") 422 ∧
     is_None url = false ∧ is_None query = false ∧
     trace out.2 = [EvValidUrl url (Return true); EvValidQuery query (Return false)]).
Proof.
  cbn zeta. unfold find_page.
  pose proof (find_page_try_run data (mkState w [])) as Hrun.
  destruct (find_page_try C data (mkState w [])) as [[r|e] s']; cbn [fst snd].
  all: intros Hstatus.
  all: try (cbn in Hstatus; by destruct Hstatus as [?|[?|[?|?]]]).
  inv_run.
  all: try (cbn in Hstatus; by destruct Hstatus as [?|[?|[?|?]]]).
  all: inv_calls; use_traces; cbn [trace world fst snd app] in *.
  all: eexists; (split; [reflexivity|]); cbn zeta.
  - by left.
  - right; by left.
  - do 2 right; by left.
  - by do 3 right.
Qed.

(** X12: the query is looked at only once the url is there, and before
    either validator is asked.  A body with a url and no query is answered
    402 without any call, whatever the url is worth; a valid url with a
    query that is not valid is answered 422 after the two validators. *)
Theorem find_page_query_checks d (s : state W) :
  is_None (dict_get d "url") = false →
  (is_None (dict_get d "query") = true →
   find_page C (PyDict d) s =
   (mkResponse (jsonify_error "Missing query parameter.") 402, s)) ∧
  (∀ w1 w2,
     is_None (dict_get d "query") = false →
     validators_url C (dict_get d "url") (world s) = (Return true, w1) →
     is_valid_query C (dict_get d "query") w1 = (Return false, w2) →
     find_page C (PyDict d) s =
     (mkResponse (jsonify_error "Invalid query.") 422,
      mkState w2 (trace s ++ [EvValidUrl (dict_get d "url") (Return true);
                              EvValidQuery (dict_get d "query") (Return false)]))).
Proof.
  intros Hurl. split.
  - intros Hquery. unfold find_page, find_page_try. cbn [items_of].
    unfold bind, ret. by rewrite Hurl, Hquery.
  - intros w1 w2 Hquery Hv1 Hv2. unfold find_page, find_page_try. cbn [items_of].
    unfold bind at 1. unfold ret at 1. rewrite Hurl, Hquery.
    unfold is_valid_url, bind, call. rewrite Hv1. unfold ret at 1.
    cbn [negb world trace]. rewrite Hv2. cbn. by rewrite <- app_assoc.
Qed.

(** X13: the requests answered 500 before anything is called.  When
    [request.json] raises, the answer is 500 with the text of that
    exception; when the body is JSON and not an object, it is 500 with the
    text of the [AttributeError] of [data.get]; in both cases nothing is
    called.  No other request is answered 500 without a call. *)
Theorem non_object_body_500 request_json w :
  let out := find_page_request C request_json (mkState w []) in
  (∀ e, request_json = Raise e →
        out = (mkResponse (jsonify_error e) 500, mkState w [])) ∧
  (∀ data, request_json = Return data → (∀ d, data ≠ PyDict d) →
           out = (mkResponse (jsonify_error ("'" +:+ type_name data +:+
                                             "' object has no attribute 'get'")) 500,
                  mkState w [])) ∧
  (status out.1 = 500 → trace out.2 = [] →
   (∃ e, request_json = Raise e) ∨
   (∃ data, request_json = Return data ∧ ∀ d, data ≠ PyDict d)).
Proof.
  cbn zeta. split_and!.
  - by intros e ->.
  - intros data -> Hdata. unfold find_page_request, find_page, find_page_try.
    destruct data as [| | | | |d0]; try done. by destruct (Hdata d0).
  - destruct request_json as [data|e]; [|by left; eexists].
    intros Hstatus Htrace. right. exists data. split; [done|].
    revert Hstatus Htrace. unfold find_page_request, find_page.
    pose proof (find_page_try_run data (mkState w [])) as Hrun.
    destruct (find_page_try C data (mkState w [])) as [[r|e] s']; cbn [fst snd].
    all: intros Hstatus Htrace; inv_run; try discriminate Hstatus; try done.
    all: inv_calls2; use_traces; cbn [trace world fst snd app] in *.
    all: try discriminate Htrace.
Qed.

(** X14: the answers of the handler.  It is a link with a message and
    status 200, or one of seven errors, each with its status and, but for
    500, its fixed text. *)
Theorem find_page_response_shape data w :
  let r := (find_page C data (mkState w [])).1 in
  (∃ link m, r = mkResponse (jsonify_link link m) 200) ∨
  r = mkResponse (jsonify_error "Missing url parameter.") 401 ∨
  r = mkResponse (jsonify_error "Missing query parameter.") 402 ∨
  r = mkResponse (jsonify_error "Invalid URL.") 421 ∨
  r = mkResponse (jsonify_error "Invalid query.") 422 ∨
  r = mkResponse (jsonify_error "No relevant links found.") 423 ∨
  r = mkResponse (jsonify_error "No relevant links found.") 424 ∨
  (∃ e, r = mkResponse (jsonify_error e) 500).
Proof.
  cbn zeta. unfold find_page.
  pose proof (find_page_try_run data (mkState w [])) as Hrun.
  destruct (find_page_try C data (mkState w [])) as [[r|e] s']; cbn [fst snd].
  all: [> inv_run | by do 7 right; eexists].
  all: repeat first [ done | left; done | left; by eexists _, _ | right ].
Qed.

(** X15: a 200 answer whose link is null is always the answer to a
    request that was not taken for a search: the run is the two validators,
    the classifier with an answer that Python takes for false, and
    [gen_unfocused_response], whose text is the message. *)
Theorem null_link_is_unfocused data w link m :
  let out := find_page C data (mkState w []) in
  out.1 = mkResponse (jsonify_link link m) 200 →
  is_None link = true →
  ∃ query url v,
    trace out.2 = [EvValidUrl url (Return true); EvValidQuery query (Return true);
                   EvClassify query url (Return v); EvUnfocused query url (Return m)] ∧
    py_truthy v = false.
Proof.
  cbn zeta. unfold find_page.
  pose proof (find_page_try_run data (mkState w [])) as Hrun.
  destruct (find_page_try C data (mkState w [])) as [[r|e] s']; cbn [fst snd].
  all: intros Hresp Hlink; try discriminate Hresp; subst r.
  all: inv_run.
  - inv_calls; use_traces; cbn [trace world fst snd app] in *.
    by eexists _, _, _.
  - exfalso.
    match goal with
    | H : _ || is_None _ = false |- _ =>
        apply orb_false_iff in H as [_ H]; congruence
    end.
Qed.

(** X16: what the deduplication keeps.  Its output holds, for every
    candidate, what [json.loads] reads from its serialization, and nothing
    else: no candidate is lost and none is made up. *)
Theorem dedup_members X y :
  y ∈ dedup C X ↔ ∃ x, x ∈ X ∧ y = json_loads C (json_dumps C x).
Proof.
  unfold dedup. rewrite dedup_acc_spec. cbn [snd].
  rewrite list_elem_of_fmap. split.
  - intros (str & -> & Hstr).
    apply elem_of_elements, elem_of_list_to_set, list_elem_of_fmap in Hstr
      as (x & -> & Hx). eauto.
  - intros (x & Hx & ->). eexists. split; [done|].
    apply elem_of_elements, elem_of_list_to_set, list_elem_of_fmap. eauto.
Qed.

(** X17: the deduplication leaves no two candidates alike.  When
    [json.loads] reads back what [json.dumps] wrote for the candidates, the
    output has no repeated item and no two items with the same
    serialization; it is as long as the input when the serializations of
    the input are all different, and shorter otherwise. *)
Theorem dedup_no_duplicates X :
  (∀ x, In x X → json_dumps C (json_loads C (json_dumps C x)) = json_dumps C x) →
  NoDup (json_dumps C <$> dedup C X) ∧ NoDup (dedup C X) ∧
  (length (dedup C X) = length X ↔ NoDup (json_dumps C <$> X)).
Proof.
  intros Hround. unfold dedup. rewrite dedup_acc_spec. cbn [snd].
  assert (json_dumps C <$>
            (json_loads C <$> elements (list_to_set (json_dumps C <$> X) : gset string))
          = elements (list_to_set (json_dumps C <$> X) : gset string)) as Hsame.
  { rewrite <- list_fmap_compose. rewrite <- (list_fmap_id (elements _)) at 2.
    apply list_fmap_ext. intros i str Hin.
    apply list_elem_of_lookup_2, elem_of_elements, elem_of_list_to_set,
      list_elem_of_fmap in Hin as (x & -> & Hx).
    apply Hround. by apply list_elem_of_In. }
  assert (NoDup (json_dumps C <$>
            (json_loads C <$> elements (list_to_set (json_dumps C <$> X) : gset string))))
    as Hnodup by (rewrite Hsame; apply NoDup_elements).
  split_and!; [done|by eapply NoDup_fmap_1|].
  rewrite length_fmap, <- (length_fmap (json_dumps C) X).
  change (length (elements ?S)) with (size S).
  generalize (json_dumps C <$> X). clear. intros l. split.
  - induction l as [|a l IH]; [constructor|].
    cbn [list_to_set length]. intros Hsize.
    assert (size (list_to_set l : gset string) ≤ length l)%nat as Hle.
    { clear. induction l as [|b l IH]; cbn; [by rewrite size_empty|].
      rewrite size_union_alt, size_singleton.
      etrans; [|apply le_n_S, IH]. cbn. apply le_n_S, subseteq_size.
      apply subseteq_difference_l. done. }
    destruct (decide (a ∈ (list_to_set l : gset string))) as [Hin|Hnin].
    + exfalso. rewrite (subseteq_union_1_L {[a]} (list_to_set l)) in Hsize
        by (by apply singleton_subseteq_l). lia.
    + rewrite size_union, size_singleton in Hsize
        by (by apply disjoint_singleton_l).
      constructor; [by rewrite elem_of_list_to_set in Hnin|]. apply IH. lia.
  - intros Hnd. by apply size_list_to_set.
Qed.

End Runs.

(** * Lemmas on the sitemap helpers *)

Section Sitemaps.
Context {W : Type} (C : collab W) (H : web W).

Lemma fetch_sitemap_loop_length urls contents w :
  length (fetch_sitemap_loop H urls contents w).1 = (length contents + length urls)%nat.
Proof.
  revert contents w. induction urls as [|url urls IH]; intros contents w; cbn.
  - lia.
  - destruct (requests_get H url w) as [[code text|e|e] w'];
      [destruct (raises_for_status code)|..];
      rewrite IH, length_app; cbn; lia.
Qed.

Lemma fetch_sitemap_loop_prefix urls contents w i x :
  contents !! i = Some x → (fetch_sitemap_loop H urls contents w).1 !! i = Some x.
Proof.
  revert contents w. induction urls as [|url urls IH]; intros contents w Hi; cbn.
  - done.
  - destruct (requests_get H url w) as [[code text|e|e] w'];
      [destruct (raises_for_status code)|..];
      apply IH; by apply lookup_app_l_Some.
Qed.

Lemma fetch_sitemap_loop_entry urls contents w i r :
  get_results H urls w !! i = Some r →
  (fetch_sitemap_loop H urls contents w).1 !! (length contents + i)%nat =
  Some (match r with
        | HttpResponse status_code text =>
            if raises_for_status status_code then PyNone else PyStr text
        | _ => PyNone
        end).
Proof.
  revert contents w i. induction urls as [|url urls IH]; intros contents w i; cbn.
  - done.
  - destruct (requests_get H url w) as [r0 w'] eqn:Hget.
    destruct i as [|i]; cbn.
    + intros [= <-]. rewrite Nat.add_0_r.
      destruct r0 as [code text|e|e]; [destruct (raises_for_status code)|..];
        apply fetch_sitemap_loop_prefix, list_lookup_middle; done.
    + intros Hi.
      destruct r0 as [code text|e|e]; [destruct (raises_for_status code)|..].
      all: match goal with
           | |- (fetch_sitemap_loop _ _ ?c _).1 !! _ = _ =>
               specialize (IH c w' i Hi)
           end.
      all: rewrite length_app in IH; cbn in IH.
      all: by replace (length contents + S i)%nat with (length contents + 1 + i)%nat by lia.
Qed.

Lemma get_results_length urls w : length (get_results H urls w) = length urls.
Proof.
  revert w. induction urls as [|url urls IH]; intros w; cbn; [done|].
  destruct (requests_get H url w) as [r w']. cbn. by rewrite IH.
Qed.

(** X18: [fetch_sitemap_contents] keeps the order and the number of the
    urls, whatever the requests do.  The result has one entry per url;
    entry [i] is [None] when request [i] raised or had an error status,
    and the text of the response otherwise. *)
Theorem fetch_sitemap_contents_aligned sitemap_urls w :
  let contents := (fetch_sitemap_contents H sitemap_urls w).1 in
  length contents = length sitemap_urls ∧
  ∀ i url, sitemap_urls !! i = Some url →
    ∃ r, get_results H sitemap_urls w !! i = Some r ∧
      (request_failed r → contents !! i = Some PyNone) ∧
      (∀ status_code text,
         r = HttpResponse status_code text → ¬ request_failed r →
         contents !! i = Some (PyStr text)).
Proof.
  cbn zeta. unfold fetch_sitemap_contents. split.
  - by rewrite fetch_sitemap_loop_length.
  - intros i url Hi.
    destruct (lookup_lt_is_Some_2 (get_results H sitemap_urls w) i) as [r Hr].
    { rewrite get_results_length. by eapply lookup_lt_Some. }
    exists r. split; [done|].
    pose proof (fetch_sitemap_loop_entry sitemap_urls [] w i r Hr) as Hentry.
    cbn [length Nat.add] in Hentry. rewrite Hentry. split.
    + destruct r as [code text|e|e]; cbn; [intros ->|..]; done.
    + intros code text -> Hok. cbn in Hok.
      by destruct (raises_for_status code).
Qed.

(** X19: when [get_sitemap_url] returns an url, it is the base url of
    [get_base_url] followed by [/sitemap.xml].  It returns it exactly when
    the HEAD request for that url gave a response whose status is below 400
    or above 599: a redirect counts as found, and so does any status from
    100 to 399. *)
Theorem get_sitemap_url_found url base w r w' :
  get_base_url C url = PyStr base →
  requests_head H (PyStr (base +:+ "/sitemap.xml")) w = (r, w') →
  (∀ v w'', get_sitemap_url C H url w = (Return v, w'') →
     v = PyNone ∨ v = PyStr (base +:+ "/sitemap.xml")) ∧
  (get_sitemap_url C H url w = (Return (PyStr (base +:+ "/sitemap.xml")), w') ↔
   ∃ status_code text,
     r = HttpResponse status_code text ∧ (status_code < 400 ∨ 600 ≤ status_code)%Z).
Proof.
  unfold get_base_url, get_sitemap_url.
  destruct (urlparse C url) as [[scheme netloc]|e]; [|done].
  intros [= <-] ->. cbn zeta. split.
  - intros v w''. destruct r as [code text|e|e];
      [destruct (raises_for_status code)|..]; intros [= <- <-]; auto.
  - unfold raises_for_status. destruct r as [code text|e|e].
    + destruct (Z.leb_spec 400 code), (Z.ltb_spec code 600); cbn [andb].
      all: split; [|intros (c & t & [= <- <-] & Hc)]; try done; try lia.
      all: intros _; exists code, text; split; [done|lia].
    + split; [done|]. by intros (c & t & [=] & _).
    + split; [done|]. by intros (c & t & [=] & _).
Qed.

(** X20: [get_sitemap_url] can raise.  It does so in two cases only:
    [urlparse] raised, in which case no request is made, although
    [get_base_url] answers [None] for the same url; or the HEAD request for
    the sitemap raised something that is not a [RequestException]. *)
Theorem get_sitemap_url_raises url w e w' :
  get_sitemap_url C H url w = (Raise e, w') ↔
  (urlparse C url = Raise e ∧ get_base_url C url = PyNone ∧ w' = w) ∨
  (∃ base, get_base_url C url = PyStr base ∧
     requests_head H (PyStr (base +:+ "/sitemap.xml")) w = (OtherError e, w')).
Proof.
  unfold get_base_url, get_sitemap_url.
  destruct (urlparse C url) as [[scheme netloc]|e0]; cbn zeta.
  - split.
    + intros Hrun. right. eexists. split; [done|].
      destruct (requests_head H _ w) as [[code text|e1|e1] w1];
        [destruct (raises_for_status code)|..]; by inversion Hrun.
    + intros [(? & _)|(base & [= <-] & ->)]; done.
  - split.
    + intros [= <- <-]. by left.
    + intros [([= ->] & _ & ->)|(base & ? & _)]; done.
Qed.

End Sitemaps.

Lemma split_head_free c s : free_of c s = true → split_head c s = s.
Proof.
  induction s as [|a s IH]; cbn -[Ascii.eqb]; [done|].
  destruct (Ascii.eqb a c); cbn -[Ascii.eqb]; [done|]. intros Hs. by rewrite IH.
Qed.

Lemma split_head_app c s1 s2 :
  free_of c s1 = true → split_head c (s1 +:+ String c s2) = s1.
Proof.
  induction s1 as [|a s1 IH].
  - change (EmptyString +:+ String c s2) with (String c s2).
    cbn -[Ascii.eqb]. by rewrite Ascii.eqb_refl.
  - change (String a s1 +:+ String c s2) with (String a (s1 +:+ String c s2)).
    cbn -[Ascii.eqb]. destruct (Ascii.eqb a c); cbn -[Ascii.eqb]; [done|].
    intros Hs. by rewrite IH.
Qed.

Lemma lstrip_free c s : free_of c s = true → lstrip c s = s.
Proof. destruct s as [|a s]; cbn -[Ascii.eqb]; [done|]. by destruct (Ascii.eqb a c). Qed.

Lemma rstrip_free c s : free_of c s = true → rstrip c s = s.
Proof.
  induction s as [|a s IH]; cbn -[Ascii.eqb]; [done|].
  destruct (Ascii.eqb a c); cbn -[Ascii.eqb]; [done|]. intros Hs. rewrite IH by done.
  by destruct s.
Qed.

(** X21: the namespace that [parse_sitemap_to_urls] takes from the tag
    of the root.  For a tag in Clark notation, a namespace between braces
    followed by the local name, it is the namespace. *)
Theorem sitemap_namespace_clark ns local :
  free_of "{" ns = true → free_of "}" ns = true →
  sitemap_namespace ("{" +:+ ns +:+ "}" +:+ local) = ns.
Proof.
  intros Hopen Hclose. unfold sitemap_namespace, strip.
  change ("{" +:+ ns +:+ "}" +:+ local)
    with (String "{" (ns +:+ String "}" local)).
  cbn [split_head]. change (Ascii.eqb "{" "}") with false. cbv iota.
  rewrite split_head_app by done.
  cbn [lstrip]. change (Ascii.eqb "{" "{") with true. cbv iota.
  by rewrite lstrip_free, rstrip_free.
Qed.

(** X22: for a root without a namespace the tag has no brace, and the
    value taken for the namespace is the tag itself, the name of the root
    element. *)
Theorem sitemap_namespace_plain tag :
  free_of "{" tag = true → free_of "}" tag = true →
  sitemap_namespace tag = tag.
Proof.
  intros Hopen Hclose. unfold sitemap_namespace, strip.
  by rewrite split_head_free, lstrip_free, rstrip_free.
Qed.

(** * The scenarios *)

Example scenario_A :
  (find_page (shop (PyBool true) PyNone [PyStr "returns"; PyStr "refunds"]
                (fun _ => returns_page) reachable)
     request (mkState tt [])).1
  = mkResponse (jsonify_link returns_page (PyStr "See the linked page.")) 200.
Proof. vm_compute. reflexivity. Qed.

Example scenario_B :
  (find_page (shop (PyBool false) (PyStr "Thank you!") [] pick_last reachable)
     remark (mkState tt [])).1
  = mkResponse (jsonify_link PyNone (PyStr "Thank you!")) 200.
Proof. vm_compute. reflexivity. Qed.

Example scenario_C :
  (find_page (shop (PyBool true) PyNone [] pick_last reachable)
     (PyDict [("url", PyStr "https://shop.example/product/1")]) (mkState tt [])).1
  = mkResponse (jsonify_error "Missing query parameter.") 402.
Proof. vm_compute. reflexivity. Qed.

(** C1, on the code: in scenario D the handler answers 200, not 424.  After
    the loop only [relevant_link] is tested, and it holds the last link
    selected, whose fetch failed. *)
Theorem exhausted_answers_200 :
  let out :=
    find_page (shop (PyBool true) PyNone
                 [PyStr "returns"; PyStr "refunds"; PyStr "shipping"]
                 pick_last unreachable)
      request (mkState tt []) in
  length (found (trace out.2)) = 3%nat ∧
  length (fetched (trace out.2)) = 2%nat ∧
  all_fetches_failed (trace out.2) = true ∧
  status out.1 = 200 ∧
  In (link_of out.1) (fetched (trace out.2)) ∧
  message_of out.1 = PyStr "See the linked page.".
Proof. vm_compute. split_and!; try reflexivity. by left. Qed.

(** C2, on the code: with three candidates and a selector that takes the
    last one, the loop fetches the same link twice.  The body removes
    [result], the item the iterator is at, not the link that was selected.
    First the loop on its own, then the whole handler in scenario D. *)
Theorem failed_candidate_fetched_again :
  let C := shop (PyBool true) PyNone
             [PyStr "returns"; PyStr "refunds"; PyStr "shipping"]
             pick_last unreachable in
  let returns := PyStr "https://shop.example/returns" in
  let refunds := PyStr "https://shop.example/refunds" in
  let shipping := PyStr "https://shop.example/shipping" in
  let loop :=
    verify_loop C (PyStr "what is your return policy?") (PyStr "https://shop.example")
      0 [returns; refunds; shipping] None None (mkState tt []) in
  let out := find_page C request (mkState tt []) in
  (fetched (trace loop.2) = [shipping; shipping] ∧
   loop.1 = Return (Some shipping, Some PyNone)) ∧
  (length (found (trace out.2)) = 3%nat ∧
   ∃ link, fetched (trace out.2) = [link; link]).
Proof.
  vm_compute. split_and!; try reflexivity. eexists. reflexivity.
Qed.

(** C3, on the code: a classifier that returns [None] gets the answer of a
    request that is not a search, 200 with a null link.  [not None] is true,
    so line 47 takes the request before line 54 can. *)
Theorem undecided_intent_answers_200 :
  let out :=
    find_page (shop PyNone (PyStr "Thank you!") [] pick_last reachable)
      remark (mkState tt []) in
  In (EvClassify (PyStr "nice shirt!") (PyStr "https://shop.example/product/1")
        (Return PyNone)) (trace out.2) ∧
  out.1 = mkResponse (jsonify_link PyNone (PyStr "Thank you!")) 200.
Proof. vm_compute. split; [|reflexivity]. do 2 right. by left. Qed.

(** C4, as stated, fails: the generation service may return an empty text,
    and the handler answers 200 with it. *)
Lemma not_searching_empty_message :
  ¬ (∀ (C : collab unit) data w query url,
       let out := find_page C data (mkState w []) in
       In (EvClassify query url (Return (PyBool false))) (trace out.2) →
       status out.1 = 200 ∧ link_of out.1 = PyNone ∧
       py_truthy (message_of out.1) = true ∧
       Forall no_search_no_fetch (trace out.2)).
Proof.
  intros Hclaim.
  destruct (Hclaim (shop (PyBool false) (PyStr "") [] pick_last reachable)
              remark tt (PyStr "nice shirt!")
              (PyStr "https://shop.example/product/1"))
    as (_ & _ & Hmessage & _).
  - vm_compute. do 2 right. by left.
  - vm_compute in Hmessage. discriminate Hmessage.
Qed.

(** C5, as stated, fails: a fetch that succeeded does not settle the
    answer.  With a link that was fetched and is a real selection, the
    answer is 500 when [gen_customer_response] raises (lines 92 and 96 to
    98); with a fetch that succeeded and every call returning, the answer is
    424 when what the selector returned, and what was fetched, is the text
    ['None'] (lines 89 and 90). *)
Lemma fetched_candidate_not_returned :
  ¬ (∀ (C : collab unit) d w link content,
       let out := find_page C (PyDict d) (mkState w []) in
       In (EvFetch link (Return content)) (trace out.2) →
       is_None content = false →
       py_eq link (PyStr "None") || is_None link = false →
       status out.1 = 200) ∧
  ¬ (∀ (C : collab unit) d w link content,
       let out := find_page C (PyDict d) (mkState w []) in
       In (EvFetch link (Return content)) (trace out.2) →
       is_None content = false →
       (∀ q b l c e, ¬ In (EvGrounded q b l c (Raise e)) (trace out.2)) →
       status out.1 = 200).
Proof.
  split; intros Hclaim.
  - assert (status (find_page answer_down request (mkState tt [])).1 = 200)
      as Hstatus; [|vm_compute in Hstatus; discriminate Hstatus].
    apply (Hclaim answer_down
             [("url", PyStr "https://shop.example/product/1");
              ("query", PyStr "what is your return policy?")]
             tt returns_page (PyStr "Returns are accepted within 30 days.")).
    + vm_compute. do 6 right. left. reflexivity.
    + reflexivity.
    + reflexivity.
  - assert (status (find_page
                      (shop (PyBool true) PyNone [PyStr "returns"]
                         (fun _ => PyStr "None") reachable)
                      request (mkState tt [])).1 = 200)
      as Hstatus; [|vm_compute in Hstatus; discriminate Hstatus].
    apply (Hclaim (shop (PyBool true) PyNone [PyStr "returns"]
                     (fun _ => PyStr "None") reachable)
             [("url", PyStr "https://shop.example/product/1");
              ("query", PyStr "what is your return policy?")]
             tt (PyStr "None") (PyStr "Returns are accepted within 30 days.")).
    + vm_compute. do 6 right. left. reflexivity.
    + reflexivity.
    + intros q b l c e. vm_compute. intros Hin.
      repeat (destruct Hin as [Hin|Hin]; [discriminate Hin|]). exact Hin.
Qed.

Lemma not_searching_unfocused_200_witness :
  let out :=
    find_page (shop (PyBool false) (PyStr "Thank you!") [] pick_last reachable)
      remark (mkState tt []) in
  out.1 = mkResponse (jsonify_link PyNone (PyStr "Thank you!")) 200 ∧
  Forall no_search_no_fetch (trace out.2).
Proof.
  cbn zeta.
  apply (not_searching_unfocused_200
           (shop (PyBool false) (PyStr "Thank you!") [] pick_last reachable)
           remark tt (PyStr "nice shirt!") (PyStr "https://shop.example/product/1")
           (PyStr "nice shirt!") (PyStr "https://shop.example/product/1")
           (PyStr "Thank you!")).
  - vm_compute. do 2 right. left. reflexivity.
  - vm_compute. do 3 right. left. reflexivity.
Defined.

Lemma fetched_candidate_returned_witness :
  let C := shop (PyBool true) PyNone [PyStr "returns"; PyStr "refunds"]
             (fun _ => returns_page) reachable in
  let out := find_page C request (mkState tt []) in
  ∃ m,
    out.1 = mkResponse (jsonify_link returns_page m) 200 ∧
    In (EvGrounded (PyStr "what is your return policy?")
          (PyStr "https://shop.example") returns_page
          (PyStr "Returns are accepted within 30 days.") (Return m))
       (trace out.2).
Proof.
  cbn zeta.
  apply (fetched_candidate_returned
           (shop (PyBool true) PyNone [PyStr "returns"; PyStr "refunds"]
              (fun _ => returns_page) reachable)
           [("url", PyStr "https://shop.example/product/1");
            ("query", PyStr "what is your return policy?")]
           tt returns_page (PyStr "Returns are accepted within 30 days.")).
  - vm_compute. do 7 right. left. reflexivity.
  - reflexivity.
  - reflexivity.
  - intros q b l c e. vm_compute. intros Hin.
    repeat (destruct Hin as [Hin|Hin]; [discriminate Hin|]). exact Hin.
Defined.

Lemma no_candidates_423_witness :
  let empty := shop (PyBool true) PyNone [] pick_last reachable in
  let nothing := shop (PyBool true) PyNone [PyStr ""; PyStr ""] pick_last reachable in
  ((find_page empty request (mkState tt [])).1
   = mkResponse (jsonify_error "No relevant links found.") 423 ∧
   Forall (fun e => ¬ is_verifier e)
     (trace (find_page empty request (mkState tt [])).2)) ∧
  ((find_page nothing request (mkState tt [])).1
   = mkResponse (jsonify_error "No relevant links found.") 423 ∧
   Forall (fun e => ¬ is_verifier e)
     (trace (find_page nothing request (mkState tt [])).2)).
Proof.
  cbn zeta. split.
  - apply (no_candidates_423 (shop (PyBool true) PyNone [] pick_last reachable)
             request tt (PyStr "what is your return policy?")
             (PyStr "https://shop.example/product/1") (PyBool true)
             (PyStr "what is your return policy?") (PyStr "https://shop.example") []).
    + vm_compute. do 2 right. left. reflexivity.
    + reflexivity.
    + vm_compute. do 3 right. left. reflexivity.
    + left. reflexivity.
  - apply (no_candidates_423
             (shop (PyBool true) PyNone [PyStr ""; PyStr ""] pick_last reachable)
             request tt (PyStr "what is your return policy?")
             (PyStr "https://shop.example/product/1") (PyBool true)
             (PyStr "what is your return policy?") (PyStr "https://shop.example")
             [PyStr ""; PyStr ""]).
    + vm_compute. do 2 right. left. reflexivity.
    + reflexivity.
    + vm_compute. do 3 right. left. reflexivity.
    + right. intros search r. vm_compute. intros Hin.
      do 4 (destruct Hin as [Hin|Hin]; [discriminate Hin|]).
      destruct Hin as [Hin|[Hin|[]]]; injection Hin as _ <-; reflexivity.
Defined.

Lemma absent_result_skipped_witness :
  let C := shop (PyBool true) PyNone [] pick_last reachable in
  let hit := EvSearch (PyStr "returns") (Return returns_page) in
  let miss := EvSearch (PyStr "") (Return PyNone) in
  let acc1 := add_result C returns_page (∅, []) in
  search_loop C [PyStr "returns"; PyStr ""; PyStr "refunds"] (∅, []) (mkState tt [])
  = search_loop C [PyStr "refunds"] acc1 (mkState tt [hit; miss]).
Proof.
  cbn zeta.
  apply (absent_result_skipped (shop (PyBool true) PyNone [] pick_last reachable)
           [PyStr "returns"] (PyStr "") [PyStr "refunds"] (∅, []) (mkState tt [])
           (add_result (shop (PyBool true) PyNone [] pick_last reachable)
              returns_page (∅, []))
           (mkState tt [EvSearch (PyStr "returns") (Return returns_page)]) tt).
  - reflexivity.
  - reflexivity.
Defined.

Lemma find_page_url_checked_first_witness :
  let C := shop (PyBool true) PyNone [] pick_last reachable in
  find_page C (PyDict []) (mkState tt [])
  = (mkResponse (jsonify_error "Missing url parameter.") 401, mkState tt []) ∧
  find_page C (PyDict [("url", PyStr "shop"); ("query", PyStr "")]) (mkState tt [])
  = (mkResponse (jsonify_error "Invalid URL.") 421,
     mkState tt [EvValidUrl (PyStr "shop") (Return false)]).
Proof.
  cbn zeta. split.
  - apply (proj1 (find_page_url_checked_first
                    (shop (PyBool true) PyNone [] pick_last reachable)
                    [] (mkState tt []))).
    reflexivity.
  - apply (proj2 (find_page_url_checked_first
                    (shop (PyBool true) PyNone [] pick_last reachable)
                    [("url", PyStr "shop"); ("query", PyStr "")] (mkState tt []))
             tt); reflexivity.
Defined.

Lemma dedup_idempotent_order_independent_witness :
  let C := shop (PyBool true) PyNone [] pick_last reachable in
  let a := PyStr "https://shop.example/returns" in
  let b := PyStr "https://shop.example/refunds" in
  ((dedup_acc C [a; b; a]).1 = (dedup_acc C [b; a; a]).1 ∧
   dedup C [a; b; a] ≡ₚ dedup C [b; a; a]) ∧
  ((dedup_acc C (dedup C [a; b; a])).1 = (dedup_acc C [a; b; a]).1 ∧
   dedup C (dedup C [a; b; a]) ≡ₚ dedup C [a; b; a]).
Proof.
  cbn zeta.
  destruct (dedup_idempotent_order_independent
              (shop (PyBool true) PyNone [] pick_last reachable)
              [PyStr "https://shop.example/returns";
               PyStr "https://shop.example/refunds";
               PyStr "https://shop.example/returns"]
              [PyStr "https://shop.example/refunds";
               PyStr "https://shop.example/returns";
               PyStr "https://shop.example/returns"])
    as [Horder Hidem].
  - apply perm_swap.
  - split; [exact Horder|]. apply Hidem.
    intros x [<-|[<-|[<-|[]]]]; reflexivity.
Defined.

Lemma selector_lists_shrink_witness :
  let C := shop (PyBool true) PyNone [PyStr "returns"; PyStr "refunds"]
             (fun _ => returns_page) reachable in
  let tr := trace (find_page C request (mkState tt [])).2 in
  let L' := dedup C [PyStr "https://shop.example/returns";
                     PyStr "https://shop.example/refunds"] in
  selections tr !! 0%nat = Some L' ∧
  sublist L' (dedup C (found tr)) ∧
  (length L' + 0)%nat = length (dedup C (found tr)).
Proof.
  cbn zeta.
  assert (selections
            (trace (find_page
                      (shop (PyBool true) PyNone [PyStr "returns"; PyStr "refunds"]
                         (fun _ => returns_page) reachable)
                      request (mkState tt [])).2) !! 0%nat
          = Some (dedup (shop (PyBool true) PyNone [PyStr "returns"; PyStr "refunds"]
                           (fun _ => returns_page) reachable)
                    [PyStr "https://shop.example/returns";
                     PyStr "https://shop.example/refunds"])) as Hsel
    by (vm_compute; reflexivity).
  split; [exact Hsel|].
  exact (selector_lists_shrink
           (shop (PyBool true) PyNone [PyStr "returns"; PyStr "refunds"]
              (fun _ => returns_page) reachable)
           request tt 0%nat _ Hsel).
Defined.

Lemma fetch_follows_selection_witness :
  let C := shop (PyBool true) PyNone [PyStr "returns"]
             (fun _ => returns_page) reachable in
  let tr := trace (find_page C request (mkState tt [])).2 in
  tr = take 6 tr ++ EvFetch returns_page
                      (Return (PyStr "Returns are accepted within 30 days."))
                    :: drop 7 tr ∧
  ∃ tr0 query base_url L',
    take 6 tr = tr0 ++ [EvSelect query base_url L' (Return returns_page)].
Proof.
  cbn zeta.
  assert (trace (find_page
                   (shop (PyBool true) PyNone [PyStr "returns"]
                      (fun _ => returns_page) reachable)
                   request (mkState tt [])).2
          = take 6 (trace (find_page
                             (shop (PyBool true) PyNone [PyStr "returns"]
                                (fun _ => returns_page) reachable)
                             request (mkState tt [])).2)
            ++ EvFetch returns_page
                 (Return (PyStr "Returns are accepted within 30 days."))
               :: drop 7 (trace (find_page
                                   (shop (PyBool true) PyNone [PyStr "returns"]
                                      (fun _ => returns_page) reachable)
                                   request (mkState tt [])).2)) as Htr
    by (vm_compute; reflexivity).
  split; [exact Htr|].
  exact (fetch_follows_selection
           (shop (PyBool true) PyNone [PyStr "returns"]
              (fun _ => returns_page) reachable)
           request tt _ _ _ _ Htr).
Defined.

Lemma find_page_fails_fast_witness :
  let out := find_page search_down request (mkState tt []) in
  let ev := EvSearch (PyStr "returns") (Raise "HTTP Error 429: Too Many Requests") in
  out.1 = mkResponse (jsonify_error "HTTP Error 429: Too Many Requests") 500 ∧
  ∃ tr0, trace out.2 = tr0 ++ [ev] ∧ Forall returned tr0.
Proof.
  cbn zeta.
  apply (find_page_fails_fast search_down request tt
           (EvSearch (PyStr "returns") (Raise "HTTP Error 429: Too Many Requests"))
           "HTTP Error 429: Too Many Requests").
  - vm_compute. do 4 right. left. reflexivity.
  - reflexivity.
Defined.

Lemma find_page_500_only_on_failure_witness :
  let out := find_page search_down request (mkState tt []) in
  ∃ tr0 ev e,
    trace out.2 = tr0 ++ [ev] ∧ raised ev = Some e ∧ Forall returned tr0 ∧
    out.1 = mkResponse (jsonify_error e) 500.
Proof.
  cbn zeta.
  apply (find_page_500_only_on_failure search_down
           [("url", PyStr "https://shop.example/product/1");
            ("query", PyStr "what is your return policy?")] tt).
  - intros str. cbn. unfold loads_plain.
    destruct str as [|c str]; [exact I|].
    destruct (Ascii.eqb c (Ascii.ascii_of_nat 34)); exact I.
  - reflexivity.
Defined.

Lemma answer_is_last_selection_witness :
  let C := shop (PyBool true) PyNone [PyStr "returns"; PyStr "refunds"]
             (fun _ => returns_page) reachable in
  let out := find_page C request (mkState tt []) in
  ∃ tr0 query base_url L content,
    trace out.2 = tr0 ++ [EvSelect query base_url L (Return returns_page);
                          EvFetch returns_page (Return content);
                          EvGrounded query base_url returns_page content
                            (Return (PyStr "See the linked page."))].
Proof.
  cbn zeta.
  apply (answer_is_last_selection
           (shop (PyBool true) PyNone [PyStr "returns"; PyStr "refunds"]
              (fun _ => returns_page) reachable)
           request tt returns_page (PyStr "See the linked page.")).
  - vm_compute. reflexivity.
  - reflexivity.
Defined.

Lemma status_424_no_selection_witness :
  let C := shop (PyBool true) PyNone [PyStr "returns"] (fun _ => PyNone) reachable in
  let out := find_page C request (mkState tt []) in
  ∃ tr0 query base_url L link content,
    trace out.2 = tr0 ++ [EvSelect query base_url L (Return link);
                          EvFetch link (Return content)] ∧
    py_eq link (PyStr "None") || is_None link = true.
Proof.
  cbn zeta.
  apply (status_424_no_selection
           (shop (PyBool true) PyNone [PyStr "returns"] (fun _ => PyNone) reachable)
           request tt).
  vm_compute. reflexivity.
Defined.

Lemma status_423_nothing_found_witness :
  let C := shop (PyBool true) PyNone [PyStr ""; PyStr ""] pick_last reachable in
  let out := find_page C request (mkState tt []) in
  found (trace out.2) = [] ∧
  Forall returned (trace out.2) ∧
  Forall (fun e => ¬ is_verifier e) (trace out.2) ∧
  ∃ query base_url,
    In (EvExpand query base_url (Return (searched (trace out.2)))) (trace out.2).
Proof.
  cbn zeta.
  apply (status_423_nothing_found
           (shop (PyBool true) PyNone [PyStr ""; PyStr ""] pick_last reachable)
           request tt).
  vm_compute. reflexivity.
Defined.

Lemma falsy_intent_unfocused_witness :
  let C := shop (PyInt 0) (PyStr "Thank you!") [PyStr "returns"] pick_last reachable in
  let out := find_page C remark (mkState tt []) in
  Forall (fun e => ¬ is_pipeline e) (trace out.2) ∧
  ((∃ m, In (EvUnfocused (PyStr "nice shirt!") (PyStr "https://shop.example/product/1")
               (Return m)) (trace out.2) ∧
         out.1 = mkResponse (jsonify_link PyNone m) 200) ∨
   (∃ e, In (EvUnfocused (PyStr "nice shirt!") (PyStr "https://shop.example/product/1")
               (Raise e)) (trace out.2) ∧
         out.1 = mkResponse (jsonify_error e) 500)).
Proof.
  cbn zeta.
  apply (falsy_intent_unfocused
           (shop (PyInt 0) (PyStr "Thank you!") [PyStr "returns"] pick_last reachable)
           remark tt (PyStr "nice shirt!") (PyStr "https://shop.example/product/1")
           (PyInt 0)).
  - vm_compute. do 2 right. left. reflexivity.
  - reflexivity.
Defined.

Lemma one_search_per_query_witness :
  let C := shop (PyBool true) PyNone [PyStr "returns"; PyStr "refunds"]
             (fun _ => returns_page) reachable in
  let tr := trace (find_page C request (mkState tt [])).2 in
  searched tr `prefix_of` [PyStr "returns"; PyStr "refunds"] ∧
  ((∀ search e, ¬ In (EvSearch search (Raise e)) tr) →
   searched tr = [PyStr "returns"; PyStr "refunds"]).
Proof.
  cbn zeta.
  apply (one_search_per_query
           (shop (PyBool true) PyNone [PyStr "returns"; PyStr "refunds"]
              (fun _ => returns_page) reachable)
           request tt (PyStr "what is your return policy?")
           (PyStr "https://shop.example")).
  vm_compute. do 3 right. left. reflexivity.
Defined.

Lemma rejection_tells_the_check_witness :
  let C := shop (PyBool true) PyNone [] pick_last reachable in
  let data := PyDict [("url", PyStr "shop"); ("query", PyStr "returns")] in
  let out := find_page C data (mkState tt []) in
  ∃ d, data = PyDict d ∧
    let url := dict_get d "url" in
    let query := dict_get d "query" in
    (out.1 = mkResponse (jsonify_error "Missing url parameter.") 401 ∧
     is_None url = true ∧ out.2 = mkState tt []) ∨
    (out.1 = mkResponse (jsonify_error "Missing query parameter.") 402 ∧
     is_None url = false ∧ is_None query = true ∧ out.2 = mkState tt []) ∨
    (out.1 = mkResponse (jsonify_error "Invalid URL.") 421 ∧
     is_None url = false ∧ is_None query = false ∧
     trace out.2 = [EvValidUrl url (Return false)]) ∨
    (out.1 = mkResponse (jsonify_error "Invalid query.") 422 ∧
     is_None url = false ∧ is_None query = false ∧
     trace out.2 = [EvValidUrl url (Return true); EvValidQuery query (Return false)]).
Proof.
  cbn zeta.
  apply (rejection_tells_the_check
           (shop (PyBool true) PyNone [] pick_last reachable)
           (PyDict [("url", PyStr "shop"); ("query", PyStr "returns")]) tt).
  do 2 right. left. vm_compute. reflexivity.
Defined.

Lemma find_page_query_checks_witness :
  let C := shop (PyBool true) PyNone [] pick_last reachable in
  find_page C (PyDict [("url", PyStr "shop")]) (mkState tt [])
  = (mkResponse (jsonify_error "Missing query parameter.") 402, mkState tt []) ∧
  find_page C (PyDict [("url", PyStr "https://shop.example/"); ("query", PyStr "")])
    (mkState tt [])
  = (mkResponse (jsonify_error "Invalid query.") 422,
     mkState tt [EvValidUrl (PyStr "https://shop.example/") (Return true);
                 EvValidQuery (PyStr "") (Return false)]).
Proof.
  cbn zeta. split.
  - apply (proj1 (find_page_query_checks
                    (shop (PyBool true) PyNone [] pick_last reachable)
                    [("url", PyStr "shop")] (mkState tt []) eq_refl)).
    reflexivity.
  - apply (proj2 (find_page_query_checks
                    (shop (PyBool true) PyNone [] pick_last reachable)
                    [("url", PyStr "https://shop.example/"); ("query", PyStr "")]
                    (mkState tt []) eq_refl)
             tt tt); reflexivity.
Defined.

Lemma non_object_body_500_witness :
  let C := shop (PyBool true) PyNone [] pick_last reachable in
  find_page_request C (Raise "400 Bad Request: Failed to decode JSON object")
    (mkState tt [])
  = (mkResponse (jsonify_error "400 Bad Request: Failed to decode JSON object") 500,
     mkState tt []) ∧
  find_page_request C (Return (PyList [])) (mkState tt [])
  = (mkResponse (jsonify_error "'list' object has no attribute 'get'") 500,
     mkState tt []).
Proof.
  cbn zeta. split.
  - apply (proj1 (non_object_body_500
                    (shop (PyBool true) PyNone [] pick_last reachable)
                    (Raise "400 Bad Request: Failed to decode JSON object") tt)).
    reflexivity.
  - apply (proj1 (proj2 (non_object_body_500
                           (shop (PyBool true) PyNone [] pick_last reachable)
                           (Return (PyList [])) tt)) (PyList [])).
    + reflexivity.
    + intros d. discriminate.
Defined.

Lemma null_link_is_unfocused_witness :
  let C := shop (PyBool false) (PyStr "Thank you!") [] pick_last reachable in
  let out := find_page C remark (mkState tt []) in
  ∃ query url v,
    trace out.2 = [EvValidUrl url (Return true); EvValidQuery query (Return true);
                   EvClassify query url (Return v);
                   EvUnfocused query url (Return (PyStr "Thank you!"))] ∧
    py_truthy v = false.
Proof.
  cbn zeta.
  apply (null_link_is_unfocused
           (shop (PyBool false) (PyStr "Thank you!") [] pick_last reachable)
           remark tt PyNone (PyStr "Thank you!")).
  - vm_compute. reflexivity.
  - reflexivity.
Defined.

Lemma dedup_no_duplicates_witness :
  let C := shop (PyBool true) PyNone [] pick_last reachable in
  let a := PyStr "https://shop.example/returns" in
  let b := PyStr "https://shop.example/refunds" in
  NoDup (json_dumps C <$> dedup C [a; b; a]) ∧ NoDup (dedup C [a; b; a]) ∧
  (length (dedup C [a; b; a]) = length [a; b; a] ↔
   NoDup (json_dumps C <$> [a; b; a])).
Proof.
  cbn zeta.
  apply (dedup_no_duplicates
           (shop (PyBool true) PyNone [] pick_last reachable)
           [PyStr "https://shop.example/returns";
            PyStr "https://shop.example/refunds";
            PyStr "https://shop.example/returns"]).
  intros x Hx.
  repeat (destruct Hx as [<-|Hx]; [vm_compute; reflexivity|]).
  destruct Hx.
Defined.

Lemma get_sitemap_url_found_witness :
  let C := shop (PyBool true) PyNone [] pick_last reachable in
  let url := PyStr "https://shop.example/product/1" in
  (∀ v w'', get_sitemap_url C shop_web url tt = (Return v, w'') →
     v = PyNone ∨ v = PyStr ("https://shop.example" +:+ "/sitemap.xml")) ∧
  (get_sitemap_url C shop_web url tt
   = (Return (PyStr ("https://shop.example" +:+ "/sitemap.xml")), tt) ↔
   ∃ status_code text,
     HttpResponse 301 "" = HttpResponse status_code text ∧
     (status_code < 400 ∨ 600 ≤ status_code)%Z).
Proof.
  cbn zeta.
  apply (get_sitemap_url_found
           (shop (PyBool true) PyNone [] pick_last reachable) shop_web
           (PyStr "https://shop.example/product/1") "https://shop.example" tt
           (HttpResponse 301 "") tt); reflexivity.
Defined.

Lemma sitemap_namespace_clark_witness :
  sitemap_namespace
    ("{" +:+ "http://www.sitemaps.org/schemas/sitemap/0.9" +:+ "}" +:+ "urlset")
  = "http://www.sitemaps.org/schemas/sitemap/0.9".
Proof.
  apply (sitemap_namespace_clark
           "http://www.sitemaps.org/schemas/sitemap/0.9" "urlset"); reflexivity.
Defined.

Lemma sitemap_namespace_plain_witness : sitemap_namespace "urlset" = "urlset".
Proof. apply (sitemap_namespace_plain "urlset"); reflexivity. Defined.
